(** * Input-arbitration policies of MetaDrive: manual control and takeover

    A shallow embedding of [metadrive/policy/manual_control_policy.py]:
    [get_controller], [ManualControlPolicy], [TakeoverPolicy],
    [TakeoverPolicyWithoutBrake] and [PHIPolicy].

    Conventions of the embedding.
    - A Python float is a rational number of [Q]; the comparisons, [abs],
      [min] and [max] of the source are exact on them.  The constants
      [0.01], [0.025] and [0.1] are the rationals [1/100], [1/40], [1/10].
    - A method that mutates [self] takes the object and returns the new one;
      an exception is a value of [exn] carried by [result], and the object
      keeps the writes made before the exception was raised.
    - What the engine, the device driver, the expert and the random generator
      deliver during one call of [act] is an input of that call ([Engine],
      [Oracle]). *)

From Stdlib Require Import QArith Qabs Qminmax ZArith List String Ascii Bool Lia Lqa.
Import ListNotations.

Open Scope Q_scope.

(** ** Exceptions and results *)

Inductive exn : Type :=
| ValueError
| AssertionError
| AttributeError
| TypeError
| KeyError
| IndexError
| DeviceError.   (* whatever a joystick driver raises without its hardware *)

Inductive result (A : Type) : Type :=
| Ok (a : A)
| Raise (e : exn).
Arguments Ok {A} a.
Arguments Raise {A} e.

Definition is_ok {A} (r : result A) : bool :=
  match r with Ok _ => true | Raise _ => false end.

Definition exn_eqb (a b : exn) : bool :=
  match a, b with
  | ValueError, ValueError | AssertionError, AssertionError
  | AttributeError, AttributeError | TypeError, TypeError
  | KeyError, KeyError | IndexError, IndexError
  | DeviceError, DeviceError => true
  | _, _ => false
  end.

(** ** Floats as rationals *)

(** [x < y] on floats. *)
Definition Qltb (x y : Q) : bool := negb (Qle_bool y x).

(** Python's [max(a, b)]: [b] when [b > a], else [a]. *)
Definition py_max (a b : Q) : Q := if Qltb a b then b else a.

(** Python's [min(a, b)]: [b] when [b < a], else [a]. *)
Definition py_min (a b : Q) : Q := if Qltb b a then b else a.

(** Modelled from the spec: [metadrive.utils.math.clip] is not under src/;
    "Clips each channel independently into [-1, 1]", written as the usual
    [min(max(a, low), high)]. *)
Definition clip (a low high : Q) : Q := py_min (py_max a low) high.

(** Python's [sum] of a list of floats, starting from [0]. *)
Definition sum (l : list Q) : Q := fold_left Qplus l 0.

Definition JOYSTICK_DEADZONE : Q := 0.025.

Definition in_unit (x : Q) : Prop := -1 <= x /\ x <= 1.

(** ** Strings: [str.lower] on ASCII names *)

Definition lower_ascii (c : ascii) : ascii :=
  let n := nat_of_ascii c in
  if andb (Nat.leb 65 n) (Nat.leb n 90) then ascii_of_nat (n + 32) else c.

Fixpoint lower (s : string) : string :=
  match s with
  | EmptyString => EmptyString
  | String c s' => String (lower_ascii c) (lower s')
  end.

Definition upper_ascii (c : ascii) : ascii :=
  let n := nat_of_ascii c in
  if andb (Nat.leb 97 n) (Nat.leb n 122) then ascii_of_nat (n - 32) else c.

Fixpoint upper (s : string) : string :=
  match s with
  | EmptyString => EmptyString
  | String c s' => String (upper_ascii c) (upper s')
  end.

(** [x in l] for a list of strings. *)
Definition str_in (x : string) (l : list string) : bool :=
  existsb (String.eqb x) l.

(** ** Controllers *)

(** Modelled from the spec: the device classes of
    [metadrive.engine.core.manual_controller] are not under src/; the
    "variant {Keyboard, Gamepad, SteeringWheel}", each with the attributes
    [TakeoverPolicy.act] reads from it.  [isinstance] is the constructor
    test. *)
Inductive Controller : Type :=
| KeyboardController (pygame_control : bool) (takeover : bool)
| XboxController (button_a button_b button_x button_y : bool)
| SteeringWheelController (left_shift_paddle right_shift_paddle : bool).

(** Modelled from the spec: "device instantiation failure (e.g. missing
    hardware)".  Whether the joystick devices can be opened: [None] when the
    constructor returns, [Some e] when it raises [e]. *)
Record Hardware : Type := {
  xbox_fault : option exn;
  wheel_fault : option exn
}.

Definition new_XboxController (hw : Hardware) : result (option Controller) :=
  match xbox_fault hw with
  | None => Ok (Some (XboxController false false false false))
  | Some e => Raise e
  end.

Definition new_SteeringWheelController (hw : Hardware) : result (option Controller) :=
  match wheel_fault hw with
  | None => Ok (Some (SteeringWheelController false false))
  | Some e => Raise e
  end.

(** [get_controller(controller_name, pygame_control)].  The value is a Python
    object that may be [None] (the docstring promises "None if error"), hence
    the [option]; the [try]/[except] that would produce [None] is commented
    out in the source. *)
Definition get_controller (hw : Hardware) (controller_name : string) (pygame_control : bool)
  : result (option Controller) :=
  let controller_name := lower controller_name in
  if String.eqb controller_name "keyboard" then
    Ok (Some (KeyboardController pygame_control false))
  else if str_in controller_name
            ["xboxController"; "xboxcontroller"; "xbox"; "gamepad"; "joystick";
             "steering_wheel"; "wheel"]%string then
    if str_in controller_name ["steering_wheel"; "wheel"]%string then
      new_SteeringWheelController hw
    else
      new_XboxController hw
  else
    Raise ValueError.

(** The lower-case names that reach each joystick constructor. *)
Definition gamepad_names : list string :=
  ["xboxcontroller"; "xbox"; "gamepad"; "joystick"]%string.

Definition wheel_names : list string := ["steering_wheel"; "wheel"]%string.

(** The names the specification lists for the configuration key [controller],
    compared case-insensitively: [keyboard|xbox|gamepad|joystick|steering_wheel|wheel]. *)
Definition spec_recognized (name : string) : bool :=
  str_in (lower name)
    ["keyboard"; "xbox"; "gamepad"; "joystick"; "steering_wheel"; "wheel"]%string.

(** ** Actions and action spaces *)

(** An action as the environment passes it: a continuous vector, or the index
    of a discrete choice. *)
Inductive Action : Type :=
| Vec (v : list Q)
| Idx (i : Z).

(** The per-tick entry [engine.external_actions[agent_id]]: a bare action, or
    a dict [{"action": ..., "extra": ...}]. *)
Inductive ExternalAction : Type :=
| Bare (a : Action)
| Dict (action : Action) (extra : bool).

(** [isinstance(external_action, dict)]. *)
Definition is_dict (x : ExternalAction) : bool :=
  match x with Dict _ _ => true | Bare _ => false end.

(** Modelled from the spec: [get_input_space] belongs to [EnvInputPolicy],
    which is not under src/; the "declared space" is a box "bounded to
    [-1,1]" for continuous actions, or a finite range of choices for discrete
    ones ([PHIPolicy]'s override returning a dict space is commented out). *)
Inductive Space : Type :=
| Box (low high : Q) (n : nat)
| Discrete (n : Z).

Definition contains (sp : Space) (x : ExternalAction) : bool :=
  match sp, x with
  | Box low high n, Bare (Vec v) =>
      Nat.eqb (List.length v) n && forallb (fun c => Qle_bool low c && Qle_bool c high) v
  | Discrete n, Bare (Idx i) => (0 <=? i)%Z && (i <? n)%Z
  | _, _ => false
  end.

(** ** The engine, the black boxes and the policy object *)

Module Config.
Record t : Type := {
  manual_control : bool;
  use_render : bool;
  controller : string;
  action_check : bool
}.
End Config.

Module ActionInfo.
(** The dict [self.action_info]; [None] is an absent key. *)
Record t : Type := {
  action : option (list Q);
  manual_control : option bool
}.
Definition empty : t := {| action := None; manual_control := None |}.
End ActionInfo.

(** What [self.engine] shows during one call [act(agent_id)]. *)
Record Engine : Type := {
  global_config : Config.t;
  external_action : ExternalAction;   (* external_actions[agent_id] *)
  is_track_vehicle : bool;            (* agent_manager.get_agent(agent_id) is current_track_agent *)
  main_camera : option bool;          (* None, or the camera and its is_bird_view_camera() *)
  current_track_agent : option bool   (* None, or the agent and its expert_takeover *)
}.

(** What the collaborators answer during one call, when they are asked. *)
Record Oracle : Type := {
  process_input : Q * Q;      (* controller.process_input(agent): steering, throttle/brake *)
  process_others : bool;      (* controller.process_others calls takeover_callback *)
  expert : result (list Q);   (* expert(current_track_agent) *)
  rand : Q                    (* np.random.rand() *)
}.

(** The attributes of a policy object.  [controller = None] stands both for
    [self.controller = None] and for the attribute never having been set:
    reading a device through either raises [AttributeError]. *)
Record Policy : Type := {
  controller : option Controller;
  enable_expert : bool;
  discrete_action : bool;
  convert_to_continuous_action : ExternalAction -> result (list Q);
  input_space : Space;
  action_info : ActionInfo.t;
  takeover : bool;
  current_takeover_last_steps : Z;
  takeover_steps : Z
}.

Definition set_controller (self : Policy) (c : option Controller) : Policy :=
  {| controller := c;
     enable_expert := enable_expert self;
     discrete_action := discrete_action self;
     convert_to_continuous_action := convert_to_continuous_action self;
     input_space := input_space self;
     action_info := action_info self;
     takeover := takeover self;
     current_takeover_last_steps := current_takeover_last_steps self;
     takeover_steps := takeover_steps self |}.

Definition set_enable_expert (self : Policy) (b : bool) : Policy :=
  {| controller := controller self;
     enable_expert := b;
     discrete_action := discrete_action self;
     convert_to_continuous_action := convert_to_continuous_action self;
     input_space := input_space self;
     action_info := action_info self;
     takeover := takeover self;
     current_takeover_last_steps := current_takeover_last_steps self;
     takeover_steps := takeover_steps self |}.

Definition set_action_info (self : Policy) (i : ActionInfo.t) : Policy :=
  {| controller := controller self;
     enable_expert := enable_expert self;
     discrete_action := discrete_action self;
     convert_to_continuous_action := convert_to_continuous_action self;
     input_space := input_space self;
     action_info := i;
     takeover := takeover self;
     current_takeover_last_steps := current_takeover_last_steps self;
     takeover_steps := takeover_steps self |}.

Definition set_takeover (self : Policy) (b : bool) : Policy :=
  {| controller := controller self;
     enable_expert := enable_expert self;
     discrete_action := discrete_action self;
     convert_to_continuous_action := convert_to_continuous_action self;
     input_space := input_space self;
     action_info := action_info self;
     takeover := b;
     current_takeover_last_steps := current_takeover_last_steps self;
     takeover_steps := takeover_steps self |}.

Definition set_current_takeover_last_steps (self : Policy) (n : Z) : Policy :=
  {| controller := controller self;
     enable_expert := enable_expert self;
     discrete_action := discrete_action self;
     convert_to_continuous_action := convert_to_continuous_action self;
     input_space := input_space self;
     action_info := action_info self;
     takeover := takeover self;
     current_takeover_last_steps := n;
     takeover_steps := takeover_steps self |}.

(** [self.action_info["action"] = a] *)
Definition set_info_action (self : Policy) (a : list Q) : Policy :=
  set_action_info self
    {| ActionInfo.action := Some a;
       ActionInfo.manual_control := ActionInfo.manual_control (action_info self) |}.

(** [self.action_info["manual_control"] = b] *)
Definition set_info_manual_control (self : Policy) (b : bool) : Policy :=
  set_action_info self
    {| ActionInfo.action := ActionInfo.action (action_info self);
       ActionInfo.manual_control := Some b |}.

(** ** Post-processing shared by [EnvInputPolicy.act] and [PHIPolicy.act] *)

(** [self.convert_to_continuous_action(action) if self.discrete_action else action],
    as the vector the comprehension then walks: an [int] has no [len], and a
    dict has no key [0]. *)
Definition to_process (self : Policy) (action : ExternalAction) : result (list Q) :=
  if discrete_action self then convert_to_continuous_action self action
  else match action with
       | Bare (Vec v) => Ok v
       | Bare (Idx _) => Raise TypeError
       | Dict _ _ => Raise KeyError
       end.

(** [[clip(to_process[i], -1.0, 1.0) for i in range(len(to_process))]] *)
Definition clip_all (v : list Q) : list Q := map (fun x => clip x (-1.0) 1.0) v.

(** The assertion under [action_check], then conversion and clipping; the
    clipped action is stored in [action_info] and returned. *)
Definition check_and_clip (E : Engine) (self : Policy) (action : ExternalAction)
  : Policy * result (list Q) :=
  if Config.action_check (global_config E)
     && negb (contains (input_space self) (external_action E))
  then (self, Raise AssertionError)
  else match to_process self action with
       | Raise e => (self, Raise e)
       | Ok v => let action := clip_all v in (set_info_action self action, Ok action)
       end.

Module EnvInputPolicy.
(** Modelled from the spec: [EnvInputPolicy.act] is not under src/.  It is
    the post-processor of the specification (validate the pre-clip external
    action when validation is enabled, convert a discrete choice, clip each
    channel into [-1, 1]) applied to the external action; [PHIPolicy.act]
    ends with the same statements under the comment "the following content
    is the same as EnvInputPolicy". *)
Definition act (E : Engine) (self : Policy) : Policy * result (list Q) :=
  check_and_clip E self (external_action E).
End EnvInputPolicy.

(** Modelled from the spec: the constructor of [EnvInputPolicy] is not under
    src/.  The object it leaves to its subclasses has no [controller]
    attribute and an empty [action_info] (the record is "recomputed every
    tick"); the class attributes of [PHIPolicy]
    ([current_takeover_last_steps = 0], [takeover_steps = 10]) are read
    through the instance. *)
Definition base_policy (discrete : bool) (convert : ExternalAction -> result (list Q))
  (space : Space) : Policy :=
  {| controller := None;
     enable_expert := false;
     discrete_action := discrete;
     convert_to_continuous_action := convert;
     input_space := space;
     action_info := ActionInfo.empty;
     takeover := false;
     current_takeover_last_steps := 0%Z;
     takeover_steps := 10%Z |}.

(** ** ManualControlPolicy *)

Module ManualControlPolicy.

(** What the constructor does besides building the object. *)
Record Effects : Type := {
  accepted_keys : list string;   (* engine.accept(key, self.toggle_takeover) *)
  warnings : list string         (* logger.warning(...) *)
}.

(** [__init__(self, obj, seed, enable_expert=True)] *)
Definition init (hw : Hardware) (config : Config.t) (base : Policy) (enable_expert : bool)
  : result (Policy * Effects) :=
  let self := set_enable_expert base enable_expert in
  let keys := if Config.manual_control config && Config.use_render config
              then ["t"%string] else [] in
  let pygame_control :=
    if Config.manual_control config && Config.use_render config then false
    else if Config.manual_control config then true
    else false in
  if Config.manual_control config then
    match get_controller hw (Config.controller config) pygame_control with
    | Raise e => Raise e
    | Ok None =>
        Ok (set_controller self (Some (KeyboardController pygame_control false)),
            {| accepted_keys := keys;
               warnings := ["Load Joystick or Steering Wheel Error! Fall back to keyboard control"%string] |})
    | Ok (Some c) =>
        Ok (set_controller self (Some c), {| accepted_keys := keys; warnings := [] |})
    end
  else
    Ok (set_controller self None, {| accepted_keys := keys; warnings := [] |}).

(** [toggle_takeover], on the tracked agent's [expert_takeover]. *)
Definition toggle_takeover (agent : option bool) : option bool :=
  match agent with
  | Some expert_takeover => Some (negb expert_takeover)
  | None => None
  end.

(** [except (ValueError, AssertionError)] *)
Definition caught (e : exn) : bool :=
  match e with ValueError | AssertionError => true | _ => false end.

(** [not_in_native_bev] *)
Definition not_in_native_bev (E : Engine) : bool :=
  match main_camera E with
  | None => true
  | Some is_bird_view_camera => negb is_bird_view_camera
  end.

(** The condition under which the device is read:
    [global_config["manual_control"] and is_track_vehicle and not_in_native_bev]. *)
Definition authority (E : Engine) : bool :=
  Config.manual_control (global_config E) && is_track_vehicle E && not_in_native_bev E.

(** The statements of [act] after the [try] block. *)
Definition choose (E : Engine) (W : Oracle) (self : Policy) (agent : option bool)
  : Policy * option bool * result (list Q) :=
  if authority E then
    let '(steering, throttle) := process_input W in
    let action := [steering; throttle] in
    let self := set_info_manual_control self true in
    (set_info_action self action, agent, Ok action)
  else
    match EnvInputPolicy.act E self with
    | (self, Raise e) => (self, agent, Raise e)
    | (self, Ok action) =>
        let self := set_info_manual_control self false in
        (set_info_action self action, agent, Ok action)
    end.

(** [act(self, agent_id)]: the new object, the tracked agent after the
    toggles, and the action or the exception. *)
Definition act (E : Engine) (W : Oracle) (self : Policy)
  : Policy * option bool * result (list Q) :=
  let agent := current_track_agent E in
  match controller self with
  | None => (self, agent, Raise AttributeError)
  | Some _ =>
      let agent := if process_others W then toggle_takeover agent else agent in
      match agent with
      | None => (self, agent, Raise AttributeError)
      | Some expert_takeover =>
          if expert_takeover && enable_expert self then
            match expert W with
            | Ok a => (self, agent, Ok a)
            | Raise e =>
                if caught e then choose E W self (toggle_takeover agent)
                else (self, agent, Raise e)
            end
          else choose E W self agent
      end
  end.

End ManualControlPolicy.

(** ** TakeoverPolicy *)

Module TakeoverPolicy.

(** [__init__(self, obj, seed)]: the [controller] attribute exists only under
    [manual_control] and [use_render]. *)
Definition init (hw : Hardware) (config : Config.t) (base : Policy) : result Policy :=
  if Config.manual_control config && Config.use_render config then
    match get_controller hw (Config.controller config) false with
    | Raise e => Raise e
    | Ok c => Ok (set_takeover (set_controller base c) false)
    end
  else Ok (set_takeover base false).

(** The condition of the outer [if], evaluated left to right; the camera is
    asked only when the first two conjuncts hold, and a missing camera has no
    method to ask. *)
Definition authority (E : Engine) : result bool :=
  if Config.manual_control (global_config E) then
    if is_track_vehicle E then
      match main_camera E with
      | None => Raise AttributeError
      | Some is_bird_view_camera => Ok (negb is_bird_view_camera)
      end
    else Ok false
  else Ok false.

(** The three [isinstance] branches. *)
Definition intent (c : Controller) (expert_action : list Q) : bool :=
  match c with
  | SteeringWheelController left_shift_paddle right_shift_paddle =>
      left_shift_paddle || right_shift_paddle
  | KeyboardController _ takeover =>
      takeover || Qltb 0.01 (Qabs (sum expert_action))
  | XboxController button_a button_b button_x button_y =>
      button_a || button_b || button_x || button_y
      || Qltb JOYSTICK_DEADZONE (Qabs (sum expert_action))
  end.

(** [act(self, agent_id)] *)
Definition act (E : Engine) (W : Oracle) (self : Policy) : Policy * result (list Q) :=
  match EnvInputPolicy.act E self with
  | (self, Raise e) => (self, Raise e)
  | (self, Ok agent_action) =>
      match authority E with
      | Raise e => (self, Raise e)
      | Ok false => (set_takeover self false, Ok agent_action)
      | Ok true =>
          match controller self with
          | None => (self, Raise AttributeError)
          | Some c =>
              let '(steering, throttle) := process_input W in
              let expert_action := [steering; throttle] in
              if intent c expert_action then (set_takeover self true, Ok expert_action)
              else (set_takeover self false, Ok agent_action)
          end
      end
  end.

End TakeoverPolicy.

(** ** TakeoverPolicyWithoutBrake *)

(** [l[i] = v] for an index in range. *)
Fixpoint list_set (l : list Q) (i : nat) (v : Q) : list Q :=
  match l, i with
  | [], _ => []
  | _ :: l', O => v :: l'
  | x :: l', S i' => x :: list_set l' i' v
  end.

Module TakeoverPolicyWithoutBrake.

(** [act(self, agent_id)] *)
Definition act (E : Engine) (W : Oracle) (self : Policy) : Policy * result (list Q) :=
  match TakeoverPolicy.act E W self with
  | (self, Raise e) => (self, Raise e)
  | (self, Ok action) =>
      if takeover self then
        match nth_error action 1 with
        | None => (self, Raise IndexError)
        | Some a1 =>
            if Qltb a1 0.0 then (self, Ok (list_set action 1 0.0)) else (self, Ok action)
        end
      else (self, Ok action)
  end.

End TakeoverPolicyWithoutBrake.

(** ** PHIPolicy *)

Module PHIPolicy.

(** [__init__]: the constructor of [TakeoverPolicy]; seeding the generator
    leaves the object as it is. *)
Definition init (hw : Hardware) (config : Config.t) (base : Policy) : result Policy :=
  TakeoverPolicy.init hw config base.

(** The first [if]: the countdown has run out. *)
Definition expire (self : Policy) : Policy :=
  if (takeover_steps self <=? current_takeover_last_steps self)%Z then
    set_current_takeover_last_steps (set_takeover self false) 0%Z
  else self.

(** [action] as the branch [if not self.takeover] binds it. *)
Definition env_action (x : ExternalAction) : Action :=
  match x with
  | Dict action _ => action
  | Bare a => a
  end.

(** [self.takeover] as the branch [if not self.takeover] leaves it: the
    [extra] entry of a dict, [False] for a bare action, and [True] whenever the
    draw is below [0.1]. *)
Definition trigger (E : Engine) (W : Oracle) : bool :=
  let takeover := match external_action E with
                  | Dict _ extra => extra
                  | Bare _ => false
                  end in
  if Qltb (rand W) 0.1 then true else takeover.

(** The second [if]. *)
Definition decide (E : Engine) (W : Oracle) (self : Policy) : Policy :=
  if negb (takeover self) then set_takeover self (trigger E W) else self.

(** [expert_action] after [if expert_action[1] < 0.0: expert_action[1] = 0.0]. *)
Definition without_brake (expert_action : Q * Q) : list Q :=
  let '(steering, throttle) := expert_action in
  if Qltb throttle 0.0 then [steering; 0.0] else [steering; throttle].

(** [act(self, agent_id)].  When [self.takeover] is false at the third [if],
    the second one has been entered and has bound [action]. *)
Definition act (E : Engine) (W : Oracle) (self : Policy) : Policy * result (list Q) :=
  let self := expire self in
  let self := decide E W self in
  if takeover self then
    match controller self with
    | None => (self, Raise AttributeError)
    | Some _ =>
        let action := Vec (without_brake (process_input W)) in
        let self :=
          set_current_takeover_last_steps self (current_takeover_last_steps self + 1)%Z in
        check_and_clip E self (Bare action)
    end
  else
    check_and_clip E self (Bare (env_action (external_action E))).

(** The objects after each of successive calls of [act]. *)
Fixpoint states (ticks : list (Engine * Oracle)) (self : Policy) : list Policy :=
  match ticks with
  | [] => []
  | (E, W) :: ticks' =>
      let self' := fst (act E W self) in
      self' :: states ticks' self'
  end.

(** The action or exception of each of successive calls of [act]. *)
Fixpoint outputs (ticks : list (Engine * Oracle)) (self : Policy) : list (result (list Q)) :=
  match ticks with
  | [] => []
  | (E, W) :: ticks' =>
      let '(self', r) := act E W self in
      r :: outputs ticks' self'
  end.

End PHIPolicy.

(** ** Vocabulary of the statements *)

(** The attributes [act] never writes. *)
Definition same_setup (a b : Policy) : Prop :=
  controller a = controller b
  /\ takeover_steps a = takeover_steps b
  /\ discrete_action a = discrete_action b
  /\ convert_to_continuous_action a = convert_to_continuous_action b
  /\ input_space a = input_space b.

(** What [PHIPolicy.act] returns from the device when the assertion passes:
    the raw action without brake, converted when the policy is discrete, and
    clipped. *)
Definition device_result (self : Policy) (W : Oracle) : result (list Q) :=
  match to_process self (Bare (Vec (PHIPolicy.without_brake (process_input W)))) with
  | Ok u => Ok (clip_all u)
  | Raise e => Raise e
  end.

(** ** Scenarios *)

(** A continuous policy over the box [-1, 1]^2 holding the controller [c]. *)
Definition demo_policy (c : option Controller) : Policy :=
  set_controller (base_policy false (fun _ => Raise TypeError) (Box (-1.0) 1.0 2)) c.

(** Manual control enabled with rendering and action check, the agent tracked,
    the camera in bird's-eye view or not, the expert takeover off. *)
Definition demo_engine (x : ExternalAction) (bird_view : bool) : Engine :=
  {| global_config :=
       {| Config.manual_control := true; Config.use_render := true;
          Config.controller := "keyboard"; Config.action_check := true |};
     external_action := x;
     is_track_vehicle := true;
     main_camera := Some bird_view;
     current_track_agent := Some false |}.

(** A device reading [raw], the toggle key pressed or not, a draw [r]; the
    expert, when asked, answers [0.3, 0.4]. *)
Definition demo_oracle (raw : Q * Q) (toggle : bool) (r : Q) : Oracle :=
  {| process_input := raw; process_others := toggle; expert := Ok [0.3; 0.4]; rand := r |}.

(** The same policy as [ManualControlPolicy] builds it around a keyboard, the
    expert enabled. *)
Definition demo_manual_policy : Policy :=
  set_enable_expert (demo_policy (Some (KeyboardController false false))) true.

(** ** Further vocabulary *)

(** The counter of [PHIPolicy] lies within the countdown, and is at zero
    whenever the policy is in AUTONOMOUS. *)
Definition countdown_ok (self : Policy) : Prop :=
  (0 <= current_takeover_last_steps self <= takeover_steps self)%Z
  /\ (takeover self = false -> current_takeover_last_steps self = 0%Z).

(** The same answers, with another one from the expert. *)
Definition with_expert (W : Oracle) (r : result (list Q)) : Oracle :=
  {| process_input := process_input W;
     process_others := process_others W;
     expert := r;
     rand := rand W |}.


(** Manual control enabled without rendering, the agent tracked, the camera as
    given. *)
Definition demo_engine_no_render (x : ExternalAction) (camera : option bool) : Engine :=
  {| global_config :=
       {| Config.manual_control := true; Config.use_render := false;
          Config.controller := "keyboard"; Config.action_check := true |};
     external_action := x;
     is_track_vehicle := true;
     main_camera := camera;
     current_track_agent := Some false |}.

(** ** Further scenarios *)

(** The engine of [demo_engine] with the action check switched off. *)
Definition demo_engine_unchecked (x : ExternalAction) (bird_view : bool) : Engine :=
  {| global_config :=
       {| Config.manual_control := true; Config.use_render := true;
          Config.controller := "keyboard"; Config.action_check := false |};
     external_action := x;
     is_track_vehicle := true;
     main_camera := Some bird_view;
     current_track_agent := Some false |}.


(** * Properties *)

(** ** Comparisons and clipping *)

Lemma Qltb_true_iff (x y : Q) : Qltb x y = true <-> x < y.
Proof.
  unfold Qltb. rewrite negb_true_iff. split; intro H.
  - apply Qnot_le_lt. intro L. apply Qle_bool_iff in L. congruence.
  - destruct (Qle_bool y x) eqn:B; [|reflexivity].
    apply Qle_bool_iff in B. exfalso. apply (Qlt_not_le _ _ H B).
Qed.

Lemma Qltb_false_iff (x y : Q) : Qltb x y = false <-> y <= x.
Proof.
  unfold Qltb. rewrite negb_false_iff. apply Qle_bool_iff.
Qed.

Lemma clip_in_unit (x : Q) : in_unit (clip x (-1.0) 1.0).
Proof.
  unfold in_unit, clip, py_min, py_max.
  destruct (Qltb x (-1.0)) eqn:A.
  - destruct (Qltb 1.0 (-1.0)) eqn:B.
    + apply Qltb_true_iff in B. lra.
    + lra.
  - apply Qltb_false_iff in A. destruct (Qltb 1.0 x) eqn:B.
    + lra.
    + apply Qltb_false_iff in B. lra.
Qed.

Lemma clip_id (x : Q) : in_unit x -> clip x (-1.0) 1.0 = x.
Proof.
  unfold in_unit, clip, py_min, py_max. intros [L U].
  destruct (Qltb x (-1.0)) eqn:A.
  - apply Qltb_true_iff in A. lra.
  - destruct (Qltb 1.0 x) eqn:B; [|reflexivity].
    apply Qltb_true_iff in B. lra.
Qed.

Lemma clip_all_in_unit (v : list Q) : Forall in_unit (clip_all v).
Proof.
  unfold clip_all. induction v as [|x v IH]; simpl; constructor; auto using clip_in_unit.
Qed.

Lemma clip_all_length (v : list Q) : List.length (clip_all v) = List.length v.
Proof. unfold clip_all. apply length_map. Qed.

Lemma clip_all_id (v : list Q) : Forall in_unit v -> clip_all v = v.
Proof.
  unfold clip_all. induction 1 as [|x v Hx _ IH]; simpl; [reflexivity|].
  rewrite clip_id by assumption. now rewrite IH.
Qed.

(** ** Names of controllers *)

Lemma lower_ascii_idem (c : ascii) : lower_ascii (lower_ascii c) = lower_ascii c.
Proof. destruct c as [[] [] [] [] [] [] [] []]; reflexivity. Qed.

Lemma lower_upper_ascii (c : ascii) : lower_ascii (upper_ascii c) = lower_ascii c.
Proof. destruct c as [[] [] [] [] [] [] [] []]; reflexivity. Qed.

Lemma lower_idem (s : string) : lower (lower s) = lower s.
Proof. induction s as [|c s IH]; simpl; [reflexivity|]. now rewrite lower_ascii_idem, IH. Qed.

Lemma lower_upper (s : string) : lower (upper s) = lower s.
Proof. induction s as [|c s IH]; simpl; [reflexivity|]. now rewrite lower_upper_ascii, IH. Qed.

Lemma str_in_true (x : string) (l : list string) : str_in x l = true <-> In x l.
Proof.
  unfold str_in. rewrite existsb_exists. split.
  - intros [y [Hy E]]. apply String.eqb_eq in E. now subst.
  - intro H. exists x. split; [assumption | apply String.eqb_refl].
Qed.

Lemma str_in_false (x : string) (l : list string) : str_in x l = false <-> ~ In x l.
Proof.
  rewrite <- str_in_true. destruct (str_in x l); split; intro H; congruence.
Qed.

Lemma get_controller_keyboard (hw : Hardware) (name : string) (pygame_control : bool) :
  lower name = "keyboard"%string ->
  get_controller hw name pygame_control = Ok (Some (KeyboardController pygame_control false)).
Proof. unfold get_controller. intros ->. reflexivity. Qed.

Lemma get_controller_gamepad (hw : Hardware) (name : string) (pygame_control : bool) :
  In (lower name) gamepad_names ->
  get_controller hw name pygame_control = new_XboxController hw.
Proof.
  unfold get_controller. intros H. simpl in H.
  destruct H as [<-|[<-|[<-|[<-|[]]]]]; reflexivity.
Qed.

Lemma get_controller_wheel (hw : Hardware) (name : string) (pygame_control : bool) :
  In (lower name) wheel_names ->
  get_controller hw name pygame_control = new_SteeringWheelController hw.
Proof.
  unfold get_controller. intros H. simpl in H.
  destruct H as [<-|[<-|[]]]; reflexivity.
Qed.

Lemma get_controller_other (hw : Hardware) (name : string) (pygame_control : bool) :
  ~ In (lower name) ("keyboard"%string :: gamepad_names ++ wheel_names) ->
  get_controller hw name pygame_control = Raise ValueError.
Proof.
  unfold get_controller. intros H.
  destruct (String.eqb (lower name) "keyboard") eqn:K.
  - apply String.eqb_eq in K. exfalso. apply H. now left.
  - match goal with |- (if ?b then _ else _) = _ => destruct b eqn:B end; [|reflexivity].
    apply str_in_true in B. exfalso. apply H. simpl in B |- *.
    destruct B as [B|[B|[B|[B|[B|[B|[B|[]]]]]]]]; try (rewrite <- B; tauto).
    (* the mixed-case entry of the list is not a lowered name *)
    assert (L : lower (lower name) = lower name) by apply lower_idem.
    rewrite <- B in L. discriminate L.
Qed.

(** C6, as the code has it: the name is compared after lowering, so every
    spelling of a name gives what its lower-case spelling gives; "keyboard"
    builds the keyboard controller; "xbox", "gamepad", "joystick" and also
    "xboxcontroller" call the gamepad constructor; "steering_wheel" and
    "wheel" call the steering-wheel constructor; every other name, "joypad2"
    among them, raises [ValueError]. *)
Theorem get_controller_by_name (hw : Hardware) (name : string) (pygame_control : bool) :
  get_controller hw (upper name) pygame_control = get_controller hw name pygame_control
  /\ get_controller hw (lower name) pygame_control = get_controller hw name pygame_control
  /\ (lower name = "keyboard"%string ->
      get_controller hw name pygame_control = Ok (Some (KeyboardController pygame_control false)))
  /\ (In (lower name) gamepad_names ->
      get_controller hw name pygame_control = new_XboxController hw)
  /\ (In (lower name) wheel_names ->
      get_controller hw name pygame_control = new_SteeringWheelController hw)
  /\ (~ In (lower name) ("keyboard"%string :: gamepad_names ++ wheel_names) ->
      get_controller hw name pygame_control = Raise ValueError)
  /\ get_controller hw "joypad2" pygame_control = Raise ValueError.
Proof.
  split; [unfold get_controller; now rewrite lower_upper|].
  split; [unfold get_controller; now rewrite lower_idem|].
  split; [apply get_controller_keyboard|].
  split; [apply get_controller_gamepad|].
  split; [apply get_controller_wheel|].
  split; [apply get_controller_other|reflexivity].
Qed.

Lemma get_controller_by_name_witness :
  get_controller {| xbox_fault := None; wheel_fault := None |} "Wheel" true
  = Ok (Some (SteeringWheelController false false))
  /\ get_controller {| xbox_fault := None; wheel_fault := None |} "XBOX" true
     = Ok (Some (XboxController false false false false))
  /\ get_controller {| xbox_fault := None; wheel_fault := None |} "mouse" true = Raise ValueError.
Proof.
  pose proof (get_controller_by_name {| xbox_fault := None; wheel_fault := None |} "Wheel" true)
    as (_ & _ & _ & _ & Hw & _).
  pose proof (get_controller_by_name {| xbox_fault := None; wheel_fault := None |} "XBOX" true)
    as (_ & _ & _ & Hx & _).
  pose proof (get_controller_by_name {| xbox_fault := None; wheel_fault := None |} "mouse" true)
    as (_ & _ & _ & _ & _ & Hn & _).
  split; [|split].
  - rewrite Hw; [reflexivity | simpl; tauto].
  - rewrite Hx; [reflexivity | simpl; tauto].
  - apply Hn. simpl. intros H.
    repeat (destruct H as [H|H]; [discriminate H|]). exact H.
Defined.

(** C6 as stated fails on a name outside the six the specification lists:
    "xboxcontroller" is accepted and builds the gamepad controller. *)
Lemma get_controller_unlisted_name :
  spec_recognized "xboxcontroller" = false
  /\ get_controller {| xbox_fault := None; wheel_fault := None |} "xboxcontroller" false
     = Ok (Some (XboxController false false false false))
  /\ get_controller {| xbox_fault := None; wheel_fault := None |} "XboxController" false
     = Ok (Some (XboxController false false false false)).
Proof. repeat split. Qed.

(** ** Post-processing *)

Lemma check_and_clip_ok (E : Engine) (self self' : Policy) (a : ExternalAction) (v : list Q) :
  check_and_clip E self a = (self', Ok v) ->
  exists u, to_process self a = Ok u /\ v = clip_all u /\ self' = set_info_action self v
            /\ (Config.action_check (global_config E) = true ->
                contains (input_space self) (external_action E) = true).
Proof.
  unfold check_and_clip.
  destruct (Config.action_check (global_config E)) eqn:C;
    destruct (contains (input_space self) (external_action E)) eqn:K; simpl;
    try discriminate;
    (destruct (to_process self a) as [u|e]; [|discriminate]);
    intros H; inversion H; subst; exists u; repeat split; auto; discriminate.
Qed.

Lemma check_and_clip_attrs (E : Engine) (self : Policy) (a : ExternalAction) :
  let self' := fst (check_and_clip E self a) in
  controller self' = controller self
  /\ takeover self' = takeover self
  /\ current_takeover_last_steps self' = current_takeover_last_steps self
  /\ takeover_steps self' = takeover_steps self
  /\ ActionInfo.manual_control (action_info self')
     = ActionInfo.manual_control (action_info self).
Proof.
  unfold check_and_clip.
  destruct (_ && _); [simpl; auto|].
  destruct (to_process self a); simpl; auto.
Qed.

Lemma check_and_clip_raises (E : Engine) (self : Policy) (a : ExternalAction) :
  Config.action_check (global_config E) = true ->
  contains (input_space self) (external_action E) = false ->
  check_and_clip E self a = (self, Raise AssertionError).
Proof. unfold check_and_clip. intros -> ->. reflexivity. Qed.

Lemma check_and_clip_returns (E : Engine) (self : Policy) (a : ExternalAction) (u : list Q) :
  Config.action_check (global_config E) = false
  \/ contains (input_space self) (external_action E) = true ->
  to_process self a = Ok u ->
  check_and_clip E self a = (set_info_action self (clip_all u), Ok (clip_all u)).
Proof.
  unfold check_and_clip. intros [-> | ->] ->; [reflexivity|].
  rewrite andb_false_r. reflexivity.
Qed.

Lemma contains_dict (sp : Space) (a : Action) (extra : bool) :
  contains sp (Dict a extra) = false.
Proof. destruct sp; reflexivity. Qed.

Lemma get_controller_not_None (hw : Hardware) (name : string) (pygame_control : bool) :
  get_controller hw name pygame_control <> Ok None.
Proof.
  unfold get_controller, new_XboxController, new_SteeringWheelController.
  repeat match goal with
         | |- context [if ?b then _ else _] => destruct b
         | |- context [match ?x with Some _ => _ | None => _ end] => destruct x
         end; discriminate.
Qed.

(** ** Construction *)

Lemma ManualControlPolicy_init_never_warns (hw : Hardware) (config : Config.t) (base : Policy)
  (enable_expert : bool) (self : Policy) (eff : ManualControlPolicy.Effects) :
  ManualControlPolicy.init hw config base enable_expert = Ok (self, eff) ->
  ManualControlPolicy.warnings eff = [].
Proof.
  unfold ManualControlPolicy.init.
  destruct (Config.manual_control config).
  - pose proof (get_controller_not_None hw (Config.controller config)) as N.
    match goal with |- context [get_controller ?h ?n ?p] =>
      specialize (N p); destruct (get_controller h n p) as [[c|]|e] end.
    + intros H. inversion H. reflexivity.
    + congruence.
    + discriminate.
  - intros H. inversion H. reflexivity.
Qed.

(** C7 on the code: under [manual_control], when the requested joystick
    device cannot be opened and its constructor raises [e], the constructor of
    [ManualControlPolicy] raises [e] too; no keyboard controller is built and
    no warning is logged. *)
Theorem ManualControlPolicy_init_device_failure (hw : Hardware) (config : Config.t)
  (base : Policy) (enable_expert : bool) (e : exn) :
  Config.manual_control config = true ->
  (In (lower (Config.controller config)) gamepad_names /\ xbox_fault hw = Some e)
  \/ (In (lower (Config.controller config)) wheel_names /\ wheel_fault hw = Some e) ->
  ManualControlPolicy.init hw config base enable_expert = Raise e.
Proof.
  intros M H. unfold ManualControlPolicy.init. rewrite M.
  destruct H as [[I F]|[I F]].
  - rewrite (get_controller_gamepad _ _ _ I). unfold new_XboxController. now rewrite F.
  - rewrite (get_controller_wheel _ _ _ I). unfold new_SteeringWheelController. now rewrite F.
Qed.

Lemma ManualControlPolicy_init_device_failure_witness :
  ManualControlPolicy.init {| xbox_fault := Some DeviceError; wheel_fault := None |}
    {| Config.manual_control := true; Config.use_render := true;
       Config.controller := "xbox"; Config.action_check := false |}
    (base_policy false (fun _ => Raise TypeError) (Box (-1.0) 1.0 2)) true
  = Raise DeviceError.
Proof.
  apply ManualControlPolicy_init_device_failure.
  - reflexivity.
  - left. split; [simpl; tauto | reflexivity].
Defined.

(** ** TakeoverPolicy: detection of the operator's intent *)

Lemma sum_pair (s t : Q) : sum [s; t] == s + t.
Proof. unfold sum. simpl. ring. Qed.

Lemma EnvInputPolicy_act_attrs (E : Engine) (self : Policy) :
  let self' := fst (EnvInputPolicy.act E self) in
  controller self' = controller self
  /\ takeover self' = takeover self
  /\ current_takeover_last_steps self' = current_takeover_last_steps self
  /\ takeover_steps self' = takeover_steps self
  /\ ActionInfo.manual_control (action_info self')
     = ActionInfo.manual_control (action_info self).
Proof. apply check_and_clip_attrs. Qed.

Lemma authority_true (E : Engine) :
  TakeoverPolicy.authority E = Ok true <->
  Config.manual_control (global_config E) = true
  /\ is_track_vehicle E = true /\ main_camera E = Some false.
Proof.
  unfold TakeoverPolicy.authority.
  destruct (Config.manual_control (global_config E)), (is_track_vehicle E),
    (main_camera E) as [[]|]; simpl; split; intros H;
    try discriminate; try (destruct H as (? & ? & ?); discriminate); auto.
Qed.

Lemma TakeoverPolicy_act_device (E : Engine) (W : Oracle) (self self1 : Policy)
  (agent_action : list Q) (c : Controller) (s t : Q) :
  EnvInputPolicy.act E self = (self1, Ok agent_action) ->
  TakeoverPolicy.authority E = Ok true ->
  controller self = Some c ->
  process_input W = (s, t) ->
  TakeoverPolicy.act E W self =
    if TakeoverPolicy.intent c [s; t] then (set_takeover self1 true, Ok [s; t])
    else (set_takeover self1 false, Ok agent_action).
Proof.
  intros HA HG HC HP. unfold TakeoverPolicy.act.
  pose proof (EnvInputPolicy_act_attrs E self) as (C1 & _). rewrite HA in *. simpl in C1.
  rewrite HG, C1, HC, HP. reflexivity.
Qed.

Lemma TakeoverPolicy_act_no_authority (E : Engine) (W : Oracle) (self self1 : Policy)
  (agent_action : list Q) :
  EnvInputPolicy.act E self = (self1, Ok agent_action) ->
  TakeoverPolicy.authority E = Ok false ->
  TakeoverPolicy.act E W self = (set_takeover self1 false, Ok agent_action).
Proof. intros HA HG. unfold TakeoverPolicy.act. rewrite HA, HG. reflexivity. Qed.

(** C2, as the code has it: with a keyboard controller and authority for
    manual control (feature enabled, tracked agent, camera not in bird's-eye
    view), whatever the state before the call, [TakeoverPolicy.act] sets
    [takeover] exactly when the keyboard's takeover flag is set or the
    absolute value of the sum of the two raw components exceeds 0.01; it then
    returns the raw keyboard action, and otherwise the env-input action. *)
Theorem keyboard_takeover (E : Engine) (W : Oracle) (self self1 : Policy)
  (agent_action : list Q) (pygame_control key : bool) (s t : Q) :
  Config.manual_control (global_config E) = true ->
  is_track_vehicle E = true ->
  main_camera E = Some false ->
  controller self = Some (KeyboardController pygame_control key) ->
  EnvInputPolicy.act E self = (self1, Ok agent_action) ->
  process_input W = (s, t) ->
  (takeover (fst (TakeoverPolicy.act E W self)) = true <-> key = true \/ 0.01 < Qabs (s + t))
  /\ (takeover (fst (TakeoverPolicy.act E W self)) = true ->
      snd (TakeoverPolicy.act E W self) = Ok [s; t])
  /\ (takeover (fst (TakeoverPolicy.act E W self)) = false ->
      snd (TakeoverPolicy.act E W self) = Ok agent_action).
Proof.
  intros HM HT HB HC HA HP.
  assert (HG : TakeoverPolicy.authority E = Ok true) by (apply authority_true; auto).
  rewrite (TakeoverPolicy_act_device E W self self1 agent_action _ s t HA HG HC HP).
  unfold TakeoverPolicy.intent.
  assert (HS : Qltb 0.01 (Qabs (sum [s; t])) = true <-> 0.01 < Qabs (s + t)).
  { rewrite Qltb_true_iff. now rewrite sum_pair. }
  destruct key; cbn [orb].
  - split; [tauto|]. split; [reflexivity | discriminate].
  - destruct (Qltb 0.01 (Qabs (sum [s; t]))); cbn [fst snd takeover set_takeover].
    + split; [|split; [reflexivity | discriminate]].
      split; [intros _; right; now apply HS | reflexivity].
    + split; [|split; [discriminate | reflexivity]].
      split; [discriminate|].
      intros [K|K]; [discriminate|]. apply HS in K. discriminate.
Qed.

Lemma keyboard_takeover_witness :
  takeover (fst (TakeoverPolicy.act (demo_engine (Bare (Vec [0.2; 0.3])) false)
                   (demo_oracle (0.5, 0.1) false 0.7)
                   (demo_policy (Some (KeyboardController false true))))) = true
  /\ snd (TakeoverPolicy.act (demo_engine (Bare (Vec [0.2; 0.3])) false)
            (demo_oracle (0.5, 0.1) false 0.7)
            (demo_policy (Some (KeyboardController false true))))
     = Ok [0.5; 0.1].
Proof.
  destruct (keyboard_takeover (demo_engine (Bare (Vec [0.2; 0.3])) false)
              (demo_oracle (0.5, 0.1) false 0.7)
              (demo_policy (Some (KeyboardController false true)))
              (set_info_action (demo_policy (Some (KeyboardController false true))) [0.2; 0.3])
              [0.2; 0.3] false true 0.5 0.1
              eq_refl eq_refl eq_refl eq_refl eq_refl eq_refl) as (A & B & _).
  assert (T : takeover (fst (TakeoverPolicy.act (demo_engine (Bare (Vec [0.2; 0.3])) false)
                               (demo_oracle (0.5, 0.1) false 0.7)
                               (demo_policy (Some (KeyboardController false true))))) = true)
    by (apply A; left; reflexivity).
  split; [exact T | exact (B T)].
Defined.

(** C2 as stated fails when the two raw components cancel: with the takeover
    flag unset and a raw keyboard action of 0.5 and -0.5, the absolute values
    sum to 1, yet the sum is 0, [takeover] stays false and the env-input
    action is returned. *)
Lemma keyboard_opposite_components :
  0.01 < Qabs 0.5 + Qabs (-0.5)
  /\ takeover (fst (TakeoverPolicy.act (demo_engine (Bare (Vec [0.2; 0.3])) false)
                      (demo_oracle (0.5, -0.5) false 0.7)
                      (demo_policy (Some (KeyboardController false false))))) = false
  /\ snd (TakeoverPolicy.act (demo_engine (Bare (Vec [0.2; 0.3])) false)
            (demo_oracle (0.5, -0.5) false 0.7)
            (demo_policy (Some (KeyboardController false false))))
     = Ok [0.2; 0.3].
Proof. repeat split. Qed.

(** C3: with a gamepad controller none of whose four buttons is pressed, a raw
    action whose absolute values sum to at most 0.025 leaves [takeover] false
    and the call returns the agent's own (env-input) action. *)
Theorem gamepad_deadzone (E : Engine) (W : Oracle) (self self1 : Policy)
  (agent_action : list Q) (s t : Q) (b : bool) :
  controller self = Some (XboxController false false false false) ->
  TakeoverPolicy.authority E = Ok b ->
  EnvInputPolicy.act E self = (self1, Ok agent_action) ->
  process_input W = (s, t) ->
  Qabs s + Qabs t <= 0.025 ->
  TakeoverPolicy.act E W self = (set_takeover self1 false, Ok agent_action)
  /\ takeover (fst (TakeoverPolicy.act E W self)) = false.
Proof.
  intros HC HG HA HP HD.
  assert (R : TakeoverPolicy.act E W self = (set_takeover self1 false, Ok agent_action)).
  { destruct b.
    - rewrite (TakeoverPolicy_act_device E W self self1 agent_action _ s t HA HG HC HP).
      unfold TakeoverPolicy.intent. cbn [orb].
      assert (F : Qltb JOYSTICK_DEADZONE (Qabs (sum [s; t])) = false).
      { apply Qltb_false_iff. rewrite sum_pair. unfold JOYSTICK_DEADZONE.
        pose proof (Qabs_triangle s t). lra. }
      rewrite F. reflexivity.
    - now apply TakeoverPolicy_act_no_authority. }
  rewrite R. split; reflexivity.
Qed.

Lemma gamepad_deadzone_witness :
  Qabs 0.01 + Qabs (-0.01) <= 0.025
  /\ TakeoverPolicy.act (demo_engine (Bare (Vec [0.2; 0.3])) false)
       (demo_oracle (0.01, -0.01) false 0.7)
       (demo_policy (Some (XboxController false false false false)))
     = (set_takeover
          (set_info_action (demo_policy (Some (XboxController false false false false)))
             [0.2; 0.3]) false,
        Ok [0.2; 0.3]).
Proof.
  assert (D : Qabs 0.01 + Qabs (-0.01) <= 0.025) by (unfold Qle; simpl; lia).
  split; [exact D|].
  exact (proj1 (gamepad_deadzone (demo_engine (Bare (Vec [0.2; 0.3])) false)
                  (demo_oracle (0.01, -0.01) false 0.7)
                  (demo_policy (Some (XboxController false false false false)))
                  (set_info_action (demo_policy (Some (XboxController false false false false)))
                     [0.2; 0.3])
                  [0.2; 0.3] 0.01 (-0.01) true eq_refl eq_refl eq_refl eq_refl D)).
Defined.

(** ** PHIPolicy: one call *)

Lemma check_and_clip_setup (E : Engine) (self : Policy) (a : ExternalAction) :
  same_setup (fst (check_and_clip E self a)) self.
Proof.
  unfold check_and_clip, same_setup.
  destruct (_ && _); [simpl; tauto|].
  destruct (to_process self a); simpl; tauto.
Qed.

Lemma expire_setup (self : Policy) : same_setup (PHIPolicy.expire self) self.
Proof.
  unfold PHIPolicy.expire, same_setup. destruct (_ <=? _)%Z; simpl; tauto.
Qed.

Lemma decide_setup (E : Engine) (W : Oracle) (self : Policy) :
  same_setup (PHIPolicy.decide E W self) self.
Proof.
  unfold PHIPolicy.decide, same_setup. destruct (negb _); simpl; tauto.
Qed.

Lemma same_setup_trans (a b c : Policy) : same_setup a b -> same_setup b c -> same_setup a c.
Proof.
  unfold same_setup. intros (?&?&?&?&?) (?&?&?&?&?). repeat split; congruence.
Qed.

(** The object after the first two [if]s of [PHIPolicy.act], named, with the
    fact that its setup is the caller's. *)
Ltac after_two_ifs E W self s2 H2 :=
  set (s2 := PHIPolicy.decide E W (PHIPolicy.expire self)) in *;
  assert (H2 : same_setup s2 self)
    by (eapply same_setup_trans; [apply decide_setup | apply expire_setup]).

Lemma PHIPolicy_act_setup (E : Engine) (W : Oracle) (self : Policy) :
  same_setup (fst (PHIPolicy.act E W self)) self.
Proof.
  unfold PHIPolicy.act.
  after_two_ifs E W self s2 H2.
  destruct (takeover s2).
  - destruct (controller s2); [|exact H2].
    eapply same_setup_trans; [apply check_and_clip_setup|].
    unfold same_setup in *. simpl. exact H2.
  - eapply same_setup_trans; [apply check_and_clip_setup | exact H2].
Qed.

(** The state a call leaves, from the state after the first two [if]s. *)
Lemma PHIPolicy_act_state (E : Engine) (W : Oracle) (self : Policy) :
  let s2 := PHIPolicy.decide E W (PHIPolicy.expire self) in
  let s' := fst (PHIPolicy.act E W self) in
  takeover s' = takeover s2
  /\ current_takeover_last_steps s' =
     (if takeover s2 then
        match controller self with
        | Some _ => current_takeover_last_steps s2 + 1
        | None => current_takeover_last_steps s2
        end
      else current_takeover_last_steps s2)%Z.
Proof.
  intros s2 s'. subst s'. unfold PHIPolicy.act. fold s2.
  assert (HC : controller s2 = controller self).
  { destruct (same_setup_trans _ _ _ (decide_setup E W _) (expire_setup self)) as (H & _).
    exact H. }
  destruct (takeover s2) eqn:T.
  - rewrite HC. destruct (controller self).
    + match goal with |- context [check_and_clip ?e ?s ?a] =>
        destruct (check_and_clip_attrs e s a) as (_ & A & B & _) end.
      rewrite A, B. simpl. auto.
    + simpl. auto.
  - match goal with |- context [check_and_clip ?e ?s ?a] =>
      destruct (check_and_clip_attrs e s a) as (_ & A & B & _) end.
    rewrite A, B. auto.
Qed.

(** A call in the course of a takeover: the inputs are not looked at. *)
Lemma PHIPolicy_act_during (E : Engine) (W : Oracle) (self : Policy) :
  controller self <> None ->
  takeover self = true ->
  (current_takeover_last_steps self < takeover_steps self)%Z ->
  takeover (fst (PHIPolicy.act E W self)) = true
  /\ current_takeover_last_steps (fst (PHIPolicy.act E W self))
     = (current_takeover_last_steps self + 1)%Z.
Proof.
  intros HC HT HL.
  destruct (PHIPolicy_act_state E W self) as (A & B). rewrite A, B.
  unfold PHIPolicy.expire.
  destruct (takeover_steps self <=? current_takeover_last_steps self)%Z eqn:X;
    [apply Z.leb_le in X; lia|].
  unfold PHIPolicy.decide. rewrite HT. simpl. rewrite HT.
  destruct (controller self); [auto | congruence].
Qed.

(** A call that starts in AUTONOMOUS, or on an expired countdown: the counter
    restarts and the trigger decides. *)
Lemma PHIPolicy_act_fresh (E : Engine) (W : Oracle) (self : Policy) :
  controller self <> None ->
  (takeover self = false /\ current_takeover_last_steps self = 0%Z)
  \/ (takeover_steps self <= current_takeover_last_steps self)%Z ->
  takeover (fst (PHIPolicy.act E W self)) = PHIPolicy.trigger E W
  /\ current_takeover_last_steps (fst (PHIPolicy.act E W self))
     = (if PHIPolicy.trigger E W then 1 else 0)%Z.
Proof.
  intros HC H.
  destruct (PHIPolicy_act_state E W self) as (A & B). rewrite A, B. clear A B.
  assert (X : takeover (PHIPolicy.expire self) = false
              /\ current_takeover_last_steps (PHIPolicy.expire self) = 0%Z).
  { unfold PHIPolicy.expire.
    destruct (takeover_steps self <=? current_takeover_last_steps self)%Z eqn:L.
    - simpl. auto.
    - destruct H as [H|H]; [exact H | apply Z.leb_gt in L; lia]. }
  destruct X as (X1 & X2).
  unfold PHIPolicy.decide. rewrite X1. simpl.
  destruct (PHIPolicy.trigger E W); rewrite X2.
  - destruct (controller self); [auto | congruence].
  - auto.
Qed.

(** ** PHIPolicy: the countdown *)

Lemma PHIPolicy_states_length (ticks : list (Engine * Oracle)) (self : Policy) :
  List.length (PHIPolicy.states ticks self) = List.length ticks.
Proof.
  revert self. induction ticks as [|[E W] ticks IH]; intros self; simpl; [reflexivity|].
  now rewrite IH.
Qed.

Lemma last_cons (x d : Policy) (l : list Policy) : last (x :: l) d = last l x.
Proof.
  revert x d. induction l as [|y l IH]; intros x d; [reflexivity|].
  change (last (x :: y :: l) d) with (last (y :: l) d).
  now rewrite !IH.
Qed.

(** Calls made while the countdown runs keep the takeover and count up, one
    per call, whatever the inputs are. *)
Lemma PHIPolicy_states_during (ticks : list (Engine * Oracle)) :
  forall (self : Policy),
    controller self <> None ->
    takeover self = true ->
    (current_takeover_last_steps self + Z.of_nat (List.length ticks) <= takeover_steps self)%Z ->
    (forall i s, nth_error (PHIPolicy.states ticks self) i = Some s ->
                 takeover s = true
                 /\ current_takeover_last_steps s
                    = (current_takeover_last_steps self + Z.of_nat i + 1)%Z)
    /\ takeover (last (PHIPolicy.states ticks self) self) = true
    /\ current_takeover_last_steps (last (PHIPolicy.states ticks self) self)
       = (current_takeover_last_steps self + Z.of_nat (List.length ticks))%Z
    /\ same_setup (last (PHIPolicy.states ticks self) self) self.
Proof.
  induction ticks as [|[E W] ticks IH]; intros self HC HT HL.
  - simpl. split; [intros [|i] s H; discriminate H|].
    split; [exact HT|]. split; [lia|]. unfold same_setup; tauto.
  - cbn [PHIPolicy.states]. cbn [List.length] in HL |- *.
    set (s1 := fst (PHIPolicy.act E W self)).
    destruct (PHIPolicy_act_during E W self HC HT ltac:(lia)) as (T1 & S1).
    pose proof (PHIPolicy_act_setup E W self) as U1. fold s1 in T1, S1, U1.
    assert (HC1 : controller s1 <> None) by (destruct U1 as (-> & _); exact HC).
    assert (HN1 : takeover_steps s1 = takeover_steps self) by apply U1.
    destruct (IH s1 HC1 T1 ltac:(lia)) as (I1 & I2 & I3 & I4).
    assert (L : last (s1 :: PHIPolicy.states ticks s1) self
                = last (PHIPolicy.states ticks s1) s1).
    { apply last_cons. }
    split; [|rewrite L; split; [exact I2 | split; [lia|]]].
    + intros [|i] s H; simpl in H.
      * inversion H; subst. split; [exact T1 | lia].
      * destruct (I1 i s H) as (A & B). split; [exact A | lia].
    + eapply same_setup_trans; [exact I4 | exact U1].
Qed.

Lemma device_result_setup (a b : Policy) (W : Oracle) :
  same_setup a b -> device_result a W = device_result b W.
Proof.
  intros (_ & _ & D & C & _). unfold device_result, to_process. now rewrite D, C.
Qed.

(** What a call that ends under takeover returns. *)
Lemma PHIPolicy_act_output_manual (E : Engine) (W : Oracle) (self : Policy) :
  controller self <> None ->
  takeover (fst (PHIPolicy.act E W self)) = true ->
  snd (PHIPolicy.act E W self) = Raise AssertionError
  \/ snd (PHIPolicy.act E W self) = device_result self W.
Proof.
  intros HC HT.
  destruct (PHIPolicy_act_state E W self) as (A & _). rewrite A in HT. clear A.
  unfold PHIPolicy.act.
  after_two_ifs E W self s2 H2.
  rewrite HT. destruct H2 as (C2 & _ & D2 & V2 & _). rewrite C2.
  destruct (controller self); [|congruence].
  unfold check_and_clip. destruct (_ && _); [left; reflexivity|].
  right. unfold device_result, to_process. simpl. rewrite D2, V2.
  destruct (discrete_action self).
  - destruct (convert_to_continuous_action self _); reflexivity.
  - reflexivity.
Qed.

Lemma PHIPolicy_outputs_during (ticks : list (Engine * Oracle)) :
  forall (self : Policy),
    controller self <> None ->
    takeover self = true ->
    (current_takeover_last_steps self + Z.of_nat (List.length ticks) <= takeover_steps self)%Z ->
    Forall2 (fun tick r => r = Raise AssertionError \/ r = device_result self (snd tick))
      ticks (PHIPolicy.outputs ticks self).
Proof.
  induction ticks as [|[E W] ticks IH]; intros self HC HT HL.
  - constructor.
  - cbn [PHIPolicy.outputs]. cbn [List.length] in HL.
    destruct (PHIPolicy_act_during E W self HC HT ltac:(lia)) as (T1 & S1).
    pose proof (PHIPolicy_act_setup E W self) as U1.
    pose proof (PHIPolicy_act_output_manual E W self HC T1) as R1.
    destruct (PHIPolicy.act E W self) as [s1 r]. simpl in *.
    assert (HC1 : controller s1 <> None) by (destruct U1 as (-> & _); exact HC).
    assert (HN1 : takeover_steps s1 = takeover_steps self) by apply U1.
    constructor; [exact R1|].
    specialize (IH s1 HC1 T1 ltac:(lia)).
    eapply Forall2_impl; [|exact IH].
    intros [E1 W1] r1 [H|H]; [now left | right].
    rewrite H. now apply device_result_setup.
Qed.

Lemma trigger_true_iff (E : Engine) (W : Oracle) :
  PHIPolicy.trigger E W = true <->
  rand W < 0.1 \/ exists a, external_action E = Dict a true.
Proof.
  unfold PHIPolicy.trigger.
  destruct (Qltb (rand W) 0.1) eqn:R.
  - apply Qltb_true_iff in R. split; auto.
  - apply Qltb_false_iff in R.
    destruct (external_action E) as [a|a [|]].
    + split; [discriminate|]. intros [H|(a' & H)]; [lra | discriminate].
    + split; eauto.
    + split; [discriminate|]. intros [H|(a' & H)]; [lra|]. inversion H.
Qed.

Lemma device_result_continuous (self : Policy) (W : Oracle) :
  discrete_action self = false ->
  device_result self W
  = Ok (clip_all [fst (process_input W);
                  if Qltb (snd (process_input W)) 0.0 then 0.0 else snd (process_input W)]).
Proof.
  intros D. unfold device_result, to_process. rewrite D.
  destruct (process_input W) as [s t]. unfold PHIPolicy.without_brake. simpl.
  destruct (Qltb t 0.0); reflexivity.
Qed.

(** C4, as the code has it, for a [PHIPolicy] that holds a controller (and a
    [takeover_steps] of at least 1; the class sets 10).  From AUTONOMOUS, a
    call on which the draw is below 0.1 or the external input is a dict whose
    [extra] entry is true enters MANUAL; counting that call, [takeover_steps]
    consecutive calls end in MANUAL whatever their inputs, with the counter
    going 1, 2, ..., [takeover_steps], each returning the processed device
    action (for a continuous policy the steering and the throttle without
    brake, clipped) unless the assertion of [action_check] fails.  On the
    following call the countdown has expired: the counter is reset, the state
    is AUTONOMOUS again, and that call ends in MANUAL, with the counter at 1,
    exactly when its own draw is below 0.1 or its external input is a dict
    whose [extra] entry is true; otherwise it ends in AUTONOMOUS with the
    counter at 0. *)
Theorem PHIPolicy_minimum_duration (E0 : Engine) (W0 : Oracle)
  (ticks : list (Engine * Oracle)) (E1 : Engine) (W1 : Oracle) (self : Policy) :
  controller self <> None ->
  (1 <= takeover_steps self)%Z ->
  takeover self = false ->
  current_takeover_last_steps self = 0%Z ->
  rand W0 < 0.1 \/ (exists a, external_action E0 = Dict a true) ->
  Z.of_nat (List.length ticks) = (takeover_steps self - 1)%Z ->
  Z.of_nat (List.length (PHIPolicy.states ((E0, W0) :: ticks) self)) = takeover_steps self
  /\ (forall i s, nth_error (PHIPolicy.states ((E0, W0) :: ticks) self) i = Some s ->
                  takeover s = true /\ current_takeover_last_steps s = (Z.of_nat i + 1)%Z)
  /\ Forall2 (fun tick r => r = Raise AssertionError \/ r = device_result self (snd tick))
       ((E0, W0) :: ticks) (PHIPolicy.outputs ((E0, W0) :: ticks) self)
  /\ (discrete_action self = false ->
      Forall2 (fun tick r =>
                 r = Raise AssertionError
                 \/ r = Ok (clip_all
                              [fst (process_input (snd tick));
                               if Qltb (snd (process_input (snd tick))) 0.0 then 0.0
                               else snd (process_input (snd tick))]))
        ((E0, W0) :: ticks) (PHIPolicy.outputs ((E0, W0) :: ticks) self))
  /\ takeover (PHIPolicy.expire (last (PHIPolicy.states ((E0, W0) :: ticks) self) self)) = false
  /\ current_takeover_last_steps
       (PHIPolicy.expire (last (PHIPolicy.states ((E0, W0) :: ticks) self) self)) = 0%Z
  /\ (takeover (fst (PHIPolicy.act E1 W1 (last (PHIPolicy.states ((E0, W0) :: ticks) self) self)))
      = true
      <-> rand W1 < 0.1 \/ (exists a, external_action E1 = Dict a true))
  /\ current_takeover_last_steps
       (fst (PHIPolicy.act E1 W1 (last (PHIPolicy.states ((E0, W0) :: ticks) self) self)))
     = (if takeover
             (fst (PHIPolicy.act E1 W1
                     (last (PHIPolicy.states ((E0, W0) :: ticks) self) self)))
        then 1 else 0)%Z.
Proof.
  intros HC HN HT HS HF HL.
  apply trigger_true_iff in HF.
  destruct (PHIPolicy_act_fresh E0 W0 self HC (or_introl (conj HT HS))) as (T1 & S1).
  rewrite HF in T1, S1.
  pose proof (PHIPolicy_act_setup E0 W0 self) as U1.
  pose proof (PHIPolicy_act_output_manual E0 W0 self HC T1) as R1.
  assert (F : Forall2 (fun tick r => r = Raise AssertionError
                                     \/ r = device_result self (snd tick))
                ((E0, W0) :: ticks) (PHIPolicy.outputs ((E0, W0) :: ticks) self)).
  { cbn [PHIPolicy.outputs].
    destruct (PHIPolicy.act E0 W0 self) as [s1 r1]. cbn [fst snd] in *.
    assert (HC1 : controller s1 <> None) by (destruct U1 as (-> & _); exact HC).
    assert (HN1 : takeover_steps s1 = takeover_steps self) by apply U1.
    constructor; [exact R1|].
    pose proof (PHIPolicy_outputs_during ticks s1 HC1 T1 ltac:(lia)) as F.
    eapply Forall2_impl; [|exact F].
    intros [Ea Wa] ra [H|H]; [now left | right].
    rewrite H. now apply device_result_setup. }
  cbn [PHIPolicy.states].
  destruct (PHIPolicy.act E0 W0 self) as [s1 r1]. cbn [fst snd] in *.
  assert (HC1 : controller s1 <> None) by (destruct U1 as (-> & _); exact HC).
  assert (HN1 : takeover_steps s1 = takeover_steps self) by apply U1.
  destruct (PHIPolicy_states_during ticks s1 HC1 T1 ltac:(lia)) as (I1 & I2 & I3 & I4).
  rewrite last_cons.
  set (sN := last (PHIPolicy.states ticks s1) s1) in *.
  assert (HCN : controller sN <> None) by (destruct I4 as (-> & _); exact HC1).
  assert (HX : (takeover_steps sN <= current_takeover_last_steps sN)%Z).
  { destruct I4 as (_ & -> & _). lia. }
  split; [cbn [List.length]; rewrite PHIPolicy_states_length; lia|].
  split.
  { intros [|i] s H; simpl in H.
    - inversion H; subst. split; [exact T1 | lia].
    - destruct (I1 i s H) as (A & B). split; [exact A | lia]. }
  split; [exact F|].
  split.
  { intros D. eapply Forall2_impl; [|exact F].
    intros [Ea Wa] ra [H|H]; [now left | right].
    rewrite H. now apply device_result_continuous. }
  destruct (PHIPolicy_act_fresh E1 W1 sN HCN (or_intror HX)) as (TN & SN).
  split; [|split; [|split]].
  - unfold PHIPolicy.expire. apply Z.leb_le in HX. rewrite HX. reflexivity.
  - unfold PHIPolicy.expire. apply Z.leb_le in HX. rewrite HX. reflexivity.
  - rewrite TN. apply trigger_true_iff.
  - rewrite SN, TN. reflexivity.
Qed.

Lemma PHIPolicy_minimum_duration_witness :
  Z.of_nat (List.length
    (PHIPolicy.states
       ((demo_engine (Dict (Vec [0.2; 0.3]) true) false, demo_oracle (0.5, 0.1) false 0.7)
        :: repeat (demo_engine (Bare (Vec [0.2; 0.3])) false, demo_oracle (0.5, 0.1) false 0.7) 9)
       (demo_policy (Some (KeyboardController false false))))) = 10%Z
  /\ (takeover (fst (PHIPolicy.act (demo_engine (Bare (Vec [0.2; 0.3])) false)
       (demo_oracle (0.5, 0.1) false 0.7)
       (last (PHIPolicy.states
         ((demo_engine (Dict (Vec [0.2; 0.3]) true) false, demo_oracle (0.5, 0.1) false 0.7)
          :: repeat (demo_engine (Bare (Vec [0.2; 0.3])) false, demo_oracle (0.5, 0.1) false 0.7) 9)
         (demo_policy (Some (KeyboardController false false))))
         (demo_policy (Some (KeyboardController false false))))))
      = true
      <-> rand (demo_oracle (0.5, 0.1) false 0.7) < 0.1
          \/ (exists a, external_action (demo_engine (Bare (Vec [0.2; 0.3])) false)
                        = Dict a true)).
Proof.
  pose proof (PHIPolicy_minimum_duration
    (demo_engine (Dict (Vec [0.2; 0.3]) true) false) (demo_oracle (0.5, 0.1) false 0.7)
    (repeat (demo_engine (Bare (Vec [0.2; 0.3])) false, demo_oracle (0.5, 0.1) false 0.7) 9)
    (demo_engine (Bare (Vec [0.2; 0.3])) false) (demo_oracle (0.5, 0.1) false 0.7)
    (demo_policy (Some (KeyboardController false false)))) as H.
  destruct H as (A & _ & _ & _ & _ & _ & B & _);
    [ discriminate | simpl; lia | reflexivity | reflexivity
    | right; exists (Vec [0.2; 0.3]); reflexivity | reflexivity | ].
  split; [exact A | exact B].
Defined.

(** C4 as stated fails for a [PHIPolicy] without a controller, as the
    constructor leaves it when the engine does not render: the call that
    enters MANUAL raises [AttributeError] before the counter moves, and so
    does every later call; after eleven further calls on which no trigger
    fires the state is still MANUAL and the counter still 0. *)
Lemma PHIPolicy_without_controller_no_revert :
  PHIPolicy.init {| xbox_fault := None; wheel_fault := None |}
    {| Config.manual_control := true; Config.use_render := false;
       Config.controller := "keyboard"; Config.action_check := true |}
    (base_policy false (fun _ => Raise TypeError) (Box (-1.0) 1.0 2))
  = Ok (demo_policy None)
  /\ takeover_steps (demo_policy None) = 10%Z
  /\ ~ 0.7 < 0.1
  /\ map (fun s => (takeover s, current_takeover_last_steps s))
       (PHIPolicy.states
          ((demo_engine_no_render (Bare (Vec [0.2; 0.3])) None,
            demo_oracle (0.5, 0.1) false 0.05)
           :: repeat (demo_engine_no_render (Bare (Vec [0.2; 0.3])) None,
                      demo_oracle (0.5, 0.1) false 0.7) 11)
          (demo_policy None))
     = repeat (true, 0%Z) 12
  /\ PHIPolicy.outputs
       ((demo_engine_no_render (Bare (Vec [0.2; 0.3])) None,
         demo_oracle (0.5, 0.1) false 0.05)
        :: repeat (demo_engine_no_render (Bare (Vec [0.2; 0.3])) None,
                   demo_oracle (0.5, 0.1) false 0.7) 11)
       (demo_policy None)
     = repeat (Raise AttributeError) 12.
Proof.
  split; [reflexivity|]. split; [reflexivity|].
  split; [unfold Qlt; simpl; lia|].
  split; vm_compute; reflexivity.
Qed.

(** ** PHIPolicy: validation of the external input *)

Lemma PHIPolicy_act_check_fails (E : Engine) (W : Oracle) (self : Policy) :
  Config.action_check (global_config E) = true ->
  contains (input_space self) (external_action E) = false ->
  (exists e, snd (PHIPolicy.act E W self) = Raise e)
  /\ (controller self <> None \/ takeover (fst (PHIPolicy.act E W self)) = false ->
      snd (PHIPolicy.act E W self) = Raise AssertionError).
Proof.
  intros HK HN.
  destruct (PHIPolicy_act_state E W self) as (A & _). rewrite A. clear A.
  unfold PHIPolicy.act.
  after_two_ifs E W self s2 H2.
  destruct H2 as (C2 & _ & _ & _ & I2).
  destruct (takeover s2).
  - rewrite C2. destruct (controller self) as [c|].
    + rewrite check_and_clip_raises; [|exact HK|simpl; rewrite I2; exact HN].
      simpl. split; [eauto|reflexivity].
    + simpl. split; [eauto|]. intros [H|H]; congruence.
  - rewrite check_and_clip_raises; [|exact HK|rewrite I2; exact HN].
    simpl. split; [eauto|reflexivity].
Qed.

(** C8: under [action_check], an external action outside the declared input
    space makes [act] raise, and nothing catches the exception: the modelled
    [EnvInputPolicy.act] raises [AssertionError]; [PHIPolicy.act] raises in
    every case, and the exception is the [AssertionError] of the check
    whenever a device is attached or the call ends in AUTONOMOUS (without a
    device, reading it under takeover has raised [AttributeError] before). *)
Theorem action_check_violation (E : Engine) (W : Oracle) (self : Policy) :
  Config.action_check (global_config E) = true ->
  contains (input_space self) (external_action E) = false ->
  snd (EnvInputPolicy.act E self) = Raise AssertionError
  /\ (exists e, snd (PHIPolicy.act E W self) = Raise e)
  /\ (controller self <> None \/ takeover (fst (PHIPolicy.act E W self)) = false ->
      snd (PHIPolicy.act E W self) = Raise AssertionError).
Proof.
  intros HK HN. split.
  - unfold EnvInputPolicy.act. now rewrite check_and_clip_raises.
  - now apply PHIPolicy_act_check_fails.
Qed.

Lemma action_check_violation_witness :
  contains (Box (-1.0) 1.0 2) (Bare (Vec [2.0; 0.0])) = false
  /\ snd (EnvInputPolicy.act (demo_engine (Bare (Vec [2.0; 0.0])) false)
            (demo_policy (Some (KeyboardController false false))))
     = Raise AssertionError
  /\ snd (PHIPolicy.act (demo_engine (Bare (Vec [2.0; 0.0])) false)
            (demo_oracle (0.5, 0.1) false 0.7)
            (demo_policy (Some (KeyboardController false false))))
     = Raise AssertionError.
Proof.
  destruct (action_check_violation (demo_engine (Bare (Vec [2.0; 0.0])) false)
              (demo_oracle (0.5, 0.1) false 0.7)
              (demo_policy (Some (KeyboardController false false))))
    as (A & _ & B); [reflexivity | reflexivity |].
  split; [reflexivity|]. split; [exact A|]. apply B. left. discriminate.
Defined.



(** ** What each [act] returns *)

Lemma EnvInputPolicy_act_in_unit (E : Engine) (self self' : Policy) (v : list Q) :
  EnvInputPolicy.act E self = (self', Ok v) -> Forall in_unit v.
Proof.
  unfold EnvInputPolicy.act. intros H.
  apply check_and_clip_ok in H. destruct H as (u & _ & -> & _). apply clip_all_in_unit.
Qed.


Lemma without_brake_length (p : Q * Q) : List.length (PHIPolicy.without_brake p) = 2%nat.
Proof. destruct p as [s t]. unfold PHIPolicy.without_brake. destruct (Qltb t 0.0); reflexivity. Qed.

(** The two ways [PHIPolicy.act] returns an action. *)
Lemma PHIPolicy_act_outcome (E : Engine) (W : Oracle) (self self' : Policy) (v : list Q) :
  PHIPolicy.act E W self = (self', Ok v) ->
  (takeover self' = true /\ controller self <> None /\ device_result self W = Ok v)
  \/ (takeover self' = false
      /\ exists u, to_process self (Bare (PHIPolicy.env_action (external_action E))) = Ok u
                   /\ v = clip_all u).
Proof.
  intros H.
  pose proof (PHIPolicy_act_state E W self) as (A & _). rewrite H in A. simpl in A.
  revert H. unfold PHIPolicy.act.
  after_two_ifs E W self s2 H2.
  destruct H2 as (C2 & _ & D2 & V2 & _).
  destruct (takeover s2).
  - rewrite C2. destruct (controller self) as [c|]; [|discriminate].
    intros H. apply check_and_clip_ok in H. destruct H as (u & P & -> & _).
    left. split; [exact A|]. split; [discriminate|].
    unfold device_result. unfold to_process in *. simpl in P. rewrite D2, V2 in P.
    now rewrite P.
  - intros H. apply check_and_clip_ok in H. destruct H as (u & P & -> & _).
    right. split; [exact A|]. exists u. split; [|reflexivity].
    unfold to_process in *. now rewrite D2, V2 in P.
Qed.

Lemma PHIPolicy_act_in_unit (E : Engine) (W : Oracle) (self self' : Policy) (v : list Q) :
  PHIPolicy.act E W self = (self', Ok v) -> Forall in_unit v.
Proof.
  intros H. apply PHIPolicy_act_outcome in H.
  destruct H as [(_ & _ & H)|(_ & u & _ & ->)]; [|apply clip_all_in_unit].
  unfold device_result in H. destruct (to_process self _); [|discriminate].
  inversion H. apply clip_all_in_unit.
Qed.

(** [PHIPolicy.act] does return, for a continuous policy with a device whose
    external input passes the check (or is not checked) and carries a vector. *)
Lemma PHIPolicy_act_returns (E : Engine) (W : Oracle) (self : Policy) (u : list Q) :
  discrete_action self = false ->
  controller self <> None ->
  Config.action_check (global_config E) = false
  \/ contains (input_space self) (external_action E) = true ->
  PHIPolicy.env_action (external_action E) = Vec u ->
  snd (PHIPolicy.act E W self) =
    if takeover (fst (PHIPolicy.act E W self))
    then Ok (clip_all (PHIPolicy.without_brake (process_input W)))
    else Ok (clip_all u).
Proof.
  intros HD HC HK HU.
  destruct (PHIPolicy_act_state E W self) as (A & _). rewrite A. clear A.
  unfold PHIPolicy.act.
  after_two_ifs E W self s2 H2.
  destruct H2 as (C2 & _ & D2 & V2 & I2).
  destruct (takeover s2).
  - rewrite C2. destruct (controller self) as [c|]; [|congruence].
    erewrite check_and_clip_returns; [reflexivity| |].
    + simpl. rewrite I2. exact HK.
    + unfold to_process. simpl. rewrite D2, HD. reflexivity.
  - erewrite check_and_clip_returns; [reflexivity| |].
    + rewrite I2. exact HK.
    + unfold to_process. rewrite D2, HD, HU. reflexivity.
Qed.

(** The two ways [TakeoverPolicy.act] returns an action. *)
Lemma TakeoverPolicy_act_outcome (E : Engine) (W : Oracle) (self self' : Policy)
  (v : list Q) (s t : Q) :
  process_input W = (s, t) ->
  TakeoverPolicy.act E W self = (self', Ok v) ->
  (takeover self' = true /\ TakeoverPolicy.authority E = Ok true /\ v = [s; t]
   /\ exists s1 a, EnvInputPolicy.act E self = (s1, Ok a) /\ self' = set_takeover s1 true)
  \/ (takeover self' = false
      /\ exists s1, EnvInputPolicy.act E self = (s1, Ok v) /\ self' = set_takeover s1 false).
Proof.
  intros HP. unfold TakeoverPolicy.act.
  destruct (EnvInputPolicy.act E self) as [s1 [a|e]]; [|discriminate].
  destruct (TakeoverPolicy.authority E) as [[|]|e]; [| |discriminate].
  - destruct (controller s1) as [c|]; [|discriminate].
    rewrite HP. destruct (TakeoverPolicy.intent c [s; t]); intros H; inversion H; subst.
    + left. repeat split; eauto.
    + right. split; [reflexivity|]. eauto.
  - intros H; inversion H; subst. right. split; [reflexivity|]. eauto.
Qed.

(** The two ways [TakeoverPolicyWithoutBrake.act] returns an action. *)
Lemma TakeoverPolicyWithoutBrake_act_outcome (E : Engine) (W : Oracle) (self self' : Policy)
  (v : list Q) (s t : Q) :
  process_input W = (s, t) ->
  TakeoverPolicyWithoutBrake.act E W self = (self', Ok v) ->
  (takeover self' = true /\ TakeoverPolicy.authority E = Ok true
   /\ v = PHIPolicy.without_brake (s, t))
  \/ (takeover self' = false /\ exists s1, EnvInputPolicy.act E self = (s1, Ok v)).
Proof.
  intros HP. unfold TakeoverPolicyWithoutBrake.act.
  destruct (TakeoverPolicy.act E W self) as [s1 [a|e]] eqn:R; [|discriminate].
  apply (TakeoverPolicy_act_outcome E W self s1 a s t HP) in R.
  destruct R as [(T & G & -> & _)|(T & s0 & Q0 & _)]; rewrite T.
  - simpl. unfold PHIPolicy.without_brake.
    destruct (Qltb t 0.0); intros H; inversion H; subst; left; auto.
  - intros H; inversion H; subst. right. eauto.
Qed.


(** The two ways the statements after the [try] block return an action. *)
Lemma ManualControlPolicy_choose_outcome (E : Engine) (W : Oracle) (self self' : Policy)
  (agent agent' : option bool) (v : list Q) (s t : Q) :
  process_input W = (s, t) ->
  ManualControlPolicy.choose E W self agent = (self', agent', Ok v) ->
  ActionInfo.action (action_info self') = Some v
  /\ ((ManualControlPolicy.authority E = true /\ v = [s; t]
       /\ ActionInfo.manual_control (action_info self') = Some true)
      \/ (ManualControlPolicy.authority E = false
          /\ (exists s1, EnvInputPolicy.act E self = (s1, Ok v))
          /\ ActionInfo.manual_control (action_info self') = Some false)).
Proof.
  intros HP. unfold ManualControlPolicy.choose.
  destruct (ManualControlPolicy.authority E).
  - rewrite HP. intros H; inversion H; subst. split; [reflexivity|]. left. auto.
  - destruct (EnvInputPolicy.act E self) as [s1 [a|e]]; [|discriminate].
    intros H; inversion H; subst. split; [reflexivity|]. right. eauto.
Qed.

(** The three ways [ManualControlPolicy.act] returns an action. *)
Lemma ManualControlPolicy_act_outcome (E : Engine) (W : Oracle) (self self' : Policy)
  (agent' : option bool) (v : list Q) (s t : Q) :
  process_input W = (s, t) ->
  ManualControlPolicy.act E W self = (self', agent', Ok v) ->
  (expert W = Ok v /\ self' = self)
  \/ (ActionInfo.action (action_info self') = Some v
      /\ ((ManualControlPolicy.authority E = true /\ v = [s; t]
           /\ ActionInfo.manual_control (action_info self') = Some true)
          \/ (ManualControlPolicy.authority E = false
              /\ (exists s1, EnvInputPolicy.act E self = (s1, Ok v))
              /\ ActionInfo.manual_control (action_info self') = Some false))).
Proof.
  intros HP. unfold ManualControlPolicy.act.
  destruct (controller self); [|discriminate].
  destruct (if process_others W then _ else _) as [x|]; [|discriminate].
  destruct (x && enable_expert self).
  - destruct (expert W) as [a|e].
    + intros H; inversion H; subst. left. auto.
    + destruct (ManualControlPolicy.caught e); [|discriminate].
      intros H. right. eapply ManualControlPolicy_choose_outcome; eauto.
  - intros H. right. eapply ManualControlPolicy_choose_outcome; eauto.
Qed.

(** ** The claims on ranges, brake suppression and authority *)

Lemma contains_box (lo hi : Q) (n : nat) (x : ExternalAction) :
  contains (Box lo hi n) x = true ->
  exists u, x = Bare (Vec u) /\ List.length u = n.
Proof.
  destruct x as [[u|i]|a e]; simpl; try discriminate.
  intros H. apply andb_true_iff in H. destruct H as (H & _).
  apply Nat.eqb_eq in H. eauto.
Qed.

Lemma PHIPolicy_act_checked (E : Engine) (W : Oracle) (self self' : Policy) (v : list Q) :
  PHIPolicy.act E W self = (self', Ok v) ->
  Config.action_check (global_config E) = true ->
  contains (input_space self) (external_action E) = true.
Proof.
  intros H K.
  destruct (contains (input_space self) (external_action E)) eqn:C; [reflexivity|].
  destruct (PHIPolicy_act_check_fails E W self K C) as ((e & X) & _).
  rewrite H in X. discriminate X.
Qed.

(** The vector behind an action that the env-input post-processing returns. *)
Lemma EnvInputPolicy_act_shape (E : Engine) (self self' : Policy) (v : list Q) :
  EnvInputPolicy.act E self = (self', Ok v) ->
  (discrete_action self = false ->
   exists u, external_action E = Bare (Vec u) /\ v = clip_all u)
  /\ (discrete_action self = true ->
      exists u, convert_to_continuous_action self (external_action E) = Ok u
                /\ v = clip_all u)
  /\ (Config.action_check (global_config E) = true ->
      contains (input_space self) (external_action E) = true).
Proof.
  unfold EnvInputPolicy.act. intros H. apply check_and_clip_ok in H.
  destruct H as (u & P & -> & _ & K). unfold to_process in P.
  split; [|split; [|exact K]]; intros D; rewrite D in P.
  - destruct (external_action E) as [[u'|i]|a x]; try discriminate.
    inversion P. subst. eauto.
  - eauto.
Qed.

Lemma EnvInputPolicy_act_length (E : Engine) (self self' : Policy) (v : list Q) :
  EnvInputPolicy.act E self = (self', Ok v) ->
  discrete_action self = false ->
  (exists u, external_action E = Bare (Vec u) /\ List.length v = List.length u)
  /\ (Config.action_check (global_config E) = true ->
      forall lo hi n, input_space self = Box lo hi n -> List.length v = n).
Proof.
  intros H D. apply EnvInputPolicy_act_shape in H. destruct H as (A & _ & K).
  destruct (A D) as (u & X & ->). rewrite clip_all_length.
  split; [eauto|]. intros C lo hi n S. specialize (K C). rewrite S, X in K.
  apply contains_box in K. destruct K as (u' & Y & L). inversion Y. now subst.
Qed.

(** C1, as the code has it.  Every action that comes out of the clipping
    code has all its components in [-1, 1]: the action of the modelled
    [EnvInputPolicy.act], every action [PHIPolicy.act] returns (the device
    action included), and the AUTONOMOUS action of the other policies, which
    is the env-input one.  For a continuous policy such an action has two
    elements when it is the device action of [PHIPolicy], and otherwise as
    many as the external vector it was clipped from, which is the dimension
    of the declared box when [action_check] is on; for a discrete policy it
    is the clipped result of the conversion.  Under MANUAL, [TakeoverPolicy],
    [TakeoverPolicyWithoutBrake] and [ManualControlPolicy] return the
    two-element device action as the device produced it (the second one with
    a negative throttle replaced by 0), without clipping; and
    [ManualControlPolicy] returns the expert's action as the expert produced
    it.  [PHIPolicy.act] does return, for a continuous policy with a device
    whose external input carries a vector and passes the check. *)
Theorem returned_action_range (E : Engine) (W : Oracle) (self : Policy) (s t : Q) :
  process_input W = (s, t) ->
  (forall self' v, EnvInputPolicy.act E self = (self', Ok v) ->
     Forall in_unit v
     /\ (discrete_action self = false ->
         (exists u, external_action E = Bare (Vec u) /\ List.length v = List.length u)
         /\ (Config.action_check (global_config E) = true ->
             forall lo hi n, input_space self = Box lo hi n -> List.length v = n))
     /\ (discrete_action self = true ->
         exists u, convert_to_continuous_action self (external_action E) = Ok u
                   /\ v = clip_all u))
  /\ (forall self' v, PHIPolicy.act E W self = (self', Ok v) ->
        Forall in_unit v
        /\ (discrete_action self = false -> takeover self' = true -> List.length v = 2%nat)
        /\ (discrete_action self = false -> takeover self' = false ->
            (exists u, (external_action E = Bare (Vec u)
                        \/ exists x, external_action E = Dict (Vec u) x)
                       /\ List.length v = List.length u)
            /\ (Config.action_check (global_config E) = true ->
                forall lo hi n, input_space self = Box lo hi n -> List.length v = n))
        /\ (discrete_action self = true ->
            exists a u, convert_to_continuous_action self (Bare a) = Ok u /\ v = clip_all u))
  /\ (forall u, discrete_action self = false ->
        controller self <> None ->
        Config.action_check (global_config E) = false
        \/ contains (input_space self) (external_action E) = true ->
        external_action E = Bare (Vec u) \/ (exists x, external_action E = Dict (Vec u) x) ->
        exists v, snd (PHIPolicy.act E W self) = Ok v)
  /\ (forall self' v, TakeoverPolicy.act E W self = (self', Ok v) ->
        (takeover self' = true -> v = [s; t])
        /\ (takeover self' = false ->
            Forall in_unit v /\ exists s1, EnvInputPolicy.act E self = (s1, Ok v)))
  /\ (forall self' v, TakeoverPolicyWithoutBrake.act E W self = (self', Ok v) ->
        (takeover self' = true -> v = [s; if Qltb t 0.0 then 0.0 else t])
        /\ (takeover self' = false ->
            Forall in_unit v /\ exists s1, EnvInputPolicy.act E self = (s1, Ok v)))
  /\ (forall self' agent' v, ManualControlPolicy.act E W self = (self', agent', Ok v) ->
        expert W = Ok v
        \/ v = [s; t]
        \/ (Forall in_unit v /\ exists s1, EnvInputPolicy.act E self = (s1, Ok v))).
Proof.
  intros HP.
  split.
  { intros self' v H. split; [eapply EnvInputPolicy_act_in_unit; eauto|].
    split; [intros D; eapply EnvInputPolicy_act_length; eauto|].
    intros D. apply EnvInputPolicy_act_shape in H. now apply H. }
  split.
  { intros self' v H. split; [eapply PHIPolicy_act_in_unit; eauto|].
    pose proof (PHIPolicy_act_checked E W self self' v H) as K.
    apply PHIPolicy_act_outcome in H.
    split; [|split].
    - intros D T. destruct H as [(_ & _ & R)|(F & _)]; [|congruence].
      unfold device_result, to_process in R. rewrite D in R. inversion R.
      rewrite clip_all_length. apply without_brake_length.
    - intros D T. destruct H as [(F & _)|(_ & u & P & ->)]; [congruence|].
      unfold to_process in P. rewrite D in P. rewrite clip_all_length.
      destruct (external_action E) as [[u'|i]|[u'|i] x] eqn:X; simpl in P;
        try discriminate; inversion P; subst u'.
      + split; [eauto|]. intros C lo hi n S. specialize (K C). rewrite S in K.
        apply contains_box in K. destruct K as (u' & Y & L). inversion Y. now subst.
      + split; [eauto|]. intros C lo hi n S. specialize (K C).
        rewrite contains_dict in K. discriminate K.
    - intros D. destruct H as [(_ & _ & R)|(_ & u & P & ->)].
      + unfold device_result, to_process in R. rewrite D in R.
        destruct (convert_to_continuous_action self _) as [u|e] eqn:X; [|discriminate].
        inversion R. eauto.
      + unfold to_process in P. rewrite D in P. eauto. }
  split.
  { intros u D C K U.
    assert (U' : PHIPolicy.env_action (external_action E) = Vec u)
      by (destruct U as [->|(x & ->)]; reflexivity).
    rewrite (PHIPolicy_act_returns E W self u D C K U').
    destruct (takeover _); eauto. }
  split.
  { intros self' v H. apply (TakeoverPolicy_act_outcome E W self self' v s t HP) in H.
    destruct H as [(T & _ & -> & _)|(T & s1 & H & _)]; rewrite T.
    - split; [reflexivity | discriminate].
    - split; [discriminate|]. intros _.
      split; [eapply EnvInputPolicy_act_in_unit; eauto | eauto]. }
  split.
  { intros self' v H.
    apply (TakeoverPolicyWithoutBrake_act_outcome E W self self' v s t HP) in H.
    destruct H as [(T & _ & ->)|(T & s1 & H)]; rewrite T.
    - split; [intros _ | discriminate].
      unfold PHIPolicy.without_brake. destruct (Qltb t 0.0); reflexivity.
    - split; [discriminate|]. intros _.
      split; [eapply EnvInputPolicy_act_in_unit; eauto | eauto]. }
  intros self' agent' v H.
  apply (ManualControlPolicy_act_outcome E W self self' agent' v s t HP) in H.
  destruct H as [(X & _)|(_ & [(G & -> & _)|(G & (s1 & H) & _)])]; auto.
  right. right. split; [eapply EnvInputPolicy_act_in_unit; eauto | eauto].
Qed.

Lemma returned_action_range_witness :
  snd (PHIPolicy.act (demo_engine (Bare (Vec [0.2; 0.3])) false)
         (demo_oracle (1.5, 0.1) false 0.05)
         (demo_policy (Some (SteeringWheelController true false))))
  = Ok [1.0; 0.1]
  /\ Forall in_unit [1.0; 0.1]
  /\ List.length [1.0; 0.1] = 2%nat.
Proof.
  destruct (returned_action_range (demo_engine (Bare (Vec [0.2; 0.3])) false)
              (demo_oracle (1.5, 0.1) false 0.05)
              (demo_policy (Some (SteeringWheelController true false))) 1.5 0.1 eq_refl)
    as (_ & A & _).
  destruct (A _ _ eq_refl) as (A1 & A2 & _).
  split; [reflexivity|]. split; [exact A1 | exact (A2 eq_refl eq_refl)].
Defined.

(** C1 as stated fails in two ways.  Under MANUAL outside [PHIPolicy] the
    device action is not clipped: a steering wheel with a paddle pressed that
    reads a steering of 1.5 has that value returned by [TakeoverPolicy.act]
    and by [ManualControlPolicy.act].  And the clipped action has the length
    of what was clipped: without [action_check], an external vector of three
    elements comes back from [PHIPolicy.act] with three elements. *)
Lemma device_action_not_clipped :
  snd (TakeoverPolicy.act (demo_engine (Bare (Vec [0.2; 0.3])) false)
         (demo_oracle (1.5, 0.0) false 0.7)
         (demo_policy (Some (SteeringWheelController true false))))
  = Ok [1.5; 0.0]
  /\ takeover (fst (TakeoverPolicy.act (demo_engine (Bare (Vec [0.2; 0.3])) false)
                      (demo_oracle (1.5, 0.0) false 0.7)
                      (demo_policy (Some (SteeringWheelController true false))))) = true
  /\ snd (ManualControlPolicy.act (demo_engine (Bare (Vec [0.2; 0.3])) false)
            (demo_oracle (1.5, 0.0) false 0.7)
            (demo_policy (Some (SteeringWheelController true false))))
     = Ok [1.5; 0.0]
  /\ ~ in_unit 1.5
  /\ snd (PHIPolicy.act (demo_engine_unchecked (Bare (Vec [0.2; 0.3; 0.4])) false)
            (demo_oracle (1.5, 0.0) false 0.7)
            (demo_policy (Some (SteeringWheelController true false))))
     = Ok [0.2; 0.3; 0.4].
Proof.
  split; [reflexivity|]. split; [reflexivity|]. split; [reflexivity|].
  split; [|reflexivity].
  intros [_ H]. revert H. unfold Qle. simpl. lia.
Qed.

Lemma clip_cases (x : Q) :
  in_unit (clip x (-1.0) 1.0)
  /\ (in_unit x -> clip x (-1.0) 1.0 = x)
  /\ (1 < x -> clip x (-1.0) 1.0 = 1.0)
  /\ (x < -1 -> clip x (-1.0) 1.0 = -1.0).
Proof.
  split; [apply clip_in_unit|]. split; [apply clip_id|].
  unfold clip, py_min, py_max. split; intros H.
  - destruct (Qltb x (-1.0)) eqn:A; [apply Qltb_true_iff in A; lra|].
    destruct (Qltb 1.0 x) eqn:B; [reflexivity|]. apply Qltb_false_iff in B. lra.
  - destruct (Qltb x (-1.0)) eqn:A; [|apply Qltb_false_iff in A; lra].
    destruct (Qltb 1.0 (-1.0)) eqn:B; [apply Qltb_true_iff in B; lra | reflexivity].
Qed.





Lemma ManualControlPolicy_authority_true (E : Engine) :
  ManualControlPolicy.authority E = true <->
  Config.manual_control (global_config E) = true
  /\ is_track_vehicle E = true
  /\ (main_camera E = None \/ main_camera E = Some false).
Proof.
  unfold ManualControlPolicy.authority, ManualControlPolicy.not_in_native_bev.
  destruct (Config.manual_control (global_config E)), (is_track_vehicle E),
    (main_camera E) as [[]|]; simpl; split; intros H;
    try discriminate; try (destruct H as (? & ? & [?|?]); discriminate); auto.
Qed.

(** With the manual-control feature disabled the constructor of
    [ManualControlPolicy] stores no controller, and [act] then fails on its
    first statement. *)
Lemma ManualControlPolicy_without_manual_control (hw : Hardware) (config : Config.t)
  (base self : Policy) (enable_expert : bool) (eff : ManualControlPolicy.Effects)
  (E : Engine) (W : Oracle) :
  Config.manual_control config = false ->
  ManualControlPolicy.init hw config base enable_expert = Ok (self, eff) ->
  snd (ManualControlPolicy.act E W self) = Raise AttributeError.
Proof.
  unfold ManualControlPolicy.init. intros ->. intros H. inversion H. subst.
  reflexivity.
Qed.

Lemma ManualControlPolicy_without_manual_control_witness :
  snd (ManualControlPolicy.act (demo_engine (Bare (Vec [0.2; 0.3])) false)
         (demo_oracle (0.5, 0.1) false 0.7)
         (set_controller (set_enable_expert (demo_policy None) true) None))
  = Raise AttributeError.
Proof.
  apply (ManualControlPolicy_without_manual_control
           {| xbox_fault := None; wheel_fault := None |}
           {| Config.manual_control := false; Config.use_render := false;
              Config.controller := "keyboard"; Config.action_check := true |}
           (demo_policy None) _ true
           {| ManualControlPolicy.accepted_keys := []; ManualControlPolicy.warnings := [] |});
    reflexivity.
Defined.

Lemma ManualControlPolicy_authority_false (E : Engine) :
  ManualControlPolicy.authority E = false <->
  Config.manual_control (global_config E) = false
  \/ is_track_vehicle E = false
  \/ main_camera E = Some true.
Proof.
  unfold ManualControlPolicy.authority, ManualControlPolicy.not_in_native_bev.
  destruct (Config.manual_control (global_config E)), (is_track_vehicle E),
    (main_camera E) as [[]|]; simpl; split; intros H;
    try discriminate; try (destruct H as [?|[?|?]]; discriminate); auto.
Qed.

Lemma authority_false (E : Engine) :
  TakeoverPolicy.authority E = Ok false <->
  Config.manual_control (global_config E) = false
  \/ is_track_vehicle E = false
  \/ main_camera E = Some true.
Proof.
  unfold TakeoverPolicy.authority.
  destruct (Config.manual_control (global_config E)), (is_track_vehicle E),
    (main_camera E) as [[]|]; simpl; split; intros H;
    try discriminate; try (destruct H as [?|[?|?]]; discriminate); auto.
Qed.

(** C9, as the code has it, for [ManualControlPolicy.act] and
    [TakeoverPolicy.act].  [ManualControlPolicy.act] returns in three ways:
    with the expert's action, the object untouched; with the device action
    and [manual_control = True] written, which happens only if the
    manual-control feature is enabled, the agent is the tracked one and the
    camera is absent or not in bird's-eye view; or with the env-input action
    and [manual_control = False] written, which happens only if the feature
    is disabled, or the agent is not the tracked one, or the camera is in
    bird's-eye view.  With a controller, a tracked agent whose expert
    takeover is off and no toggle, the call does return in the last two ways
    under those conditions.  [TakeoverPolicy.act] never writes the
    [manual_control] entry: it ends with [takeover] true, returning the
    device action, only if the feature is enabled, the agent is the tracked
    one and the camera is present and not in bird's-eye view; and if the
    feature is disabled, or the agent is not the tracked one, or the camera
    is in bird's-eye view, it returns the env-input action with [takeover]
    false. *)
Theorem manual_authority (E : Engine) (W : Oracle) (self : Policy) (s t : Q) :
  process_input W = (s, t) ->
  (forall self' agent' v,
      ManualControlPolicy.act E W self = (self', agent', Ok v) ->
      (expert W = Ok v /\ self' = self)
      \/ (ActionInfo.action (action_info self') = Some v
          /\ (((Config.manual_control (global_config E) = true
                /\ is_track_vehicle E = true
                /\ (main_camera E = None \/ main_camera E = Some false))
               /\ v = [s; t]
               /\ ActionInfo.manual_control (action_info self') = Some true)
              \/ ((Config.manual_control (global_config E) = false
                   \/ is_track_vehicle E = false
                   \/ main_camera E = Some true)
                  /\ (exists s1, EnvInputPolicy.act E self = (s1, Ok v))
                  /\ ActionInfo.manual_control (action_info self') = Some false))))
  /\ (controller self <> None ->
      current_track_agent E = Some false ->
      process_others W = false ->
      (Config.manual_control (global_config E) = true ->
       is_track_vehicle E = true ->
       main_camera E = None \/ main_camera E = Some false ->
       ManualControlPolicy.act E W self
       = (set_info_action (set_info_manual_control self true) [s; t], Some false, Ok [s; t]))
      /\ (Config.manual_control (global_config E) = false
          \/ is_track_vehicle E = false
          \/ main_camera E = Some true ->
          forall s1 v, EnvInputPolicy.act E self = (s1, Ok v) ->
          ManualControlPolicy.act E W self
          = (set_info_action (set_info_manual_control s1 false) v, Some false, Ok v)))
  /\ (forall self' v,
        TakeoverPolicy.act E W self = (self', Ok v) ->
        ActionInfo.manual_control (action_info self')
        = ActionInfo.manual_control (action_info self)
        /\ (takeover self' = true ->
            Config.manual_control (global_config E) = true
            /\ is_track_vehicle E = true
            /\ main_camera E = Some false
            /\ v = [s; t])
        /\ (takeover self' = false -> exists s1, EnvInputPolicy.act E self = (s1, Ok v)))
  /\ (Config.manual_control (global_config E) = false
      \/ is_track_vehicle E = false
      \/ main_camera E = Some true ->
      forall s1 v, EnvInputPolicy.act E self = (s1, Ok v) ->
      TakeoverPolicy.act E W self = (set_takeover s1 false, Ok v)).
Proof.
  intros HP.
  split.
  { intros self' agent' v H.
    apply (ManualControlPolicy_act_outcome E W self self' agent' v s t HP) in H.
    destruct H as [H|(A & [(G & R)|(G & R)])]; [left; exact H | |].
    - right. split; [exact A|]. left.
      split; [apply ManualControlPolicy_authority_true; exact G | exact R].
    - right. split; [exact A|]. right.
      split; [apply ManualControlPolicy_authority_false; exact G | exact R]. }
  split.
  { intros HC HA HO. unfold ManualControlPolicy.act, ManualControlPolicy.choose.
    destruct (controller self); [|congruence]. rewrite HO, HA. simpl.
    split.
    - intros M T C.
      assert (G : ManualControlPolicy.authority E = true)
        by (apply ManualControlPolicy_authority_true; auto).
      rewrite G, HP. reflexivity.
    - intros G s1 v ->. apply ManualControlPolicy_authority_false in G.
      rewrite G. reflexivity. }
  split.
  { intros self' v H.
    apply (TakeoverPolicy_act_outcome E W self self' v s t HP) in H.
    pose proof (EnvInputPolicy_act_attrs E self) as (_ & _ & _ & _ & M).
    destruct H as [(T & G & -> & s1 & a & H & ->)|(T & s1 & H & ->)];
      rewrite H in M; simpl in M; simpl; (split; [exact M|]); split;
      intros X; try discriminate X; eauto.
    apply authority_true in G. destruct G as (G1 & G2 & G3). auto. }
  intros G s1 v H. apply authority_false in G.
  now apply TakeoverPolicy_act_no_authority.
Qed.

Lemma manual_authority_witness :
  ManualControlPolicy.act (demo_engine (Bare (Vec [0.2; 0.3])) false)
    (demo_oracle (0.5, 0.1) false 0.7) demo_manual_policy
  = (set_info_action (set_info_manual_control demo_manual_policy true) [0.5; 0.1],
     Some false, Ok [0.5; 0.1])
  /\ TakeoverPolicy.act (demo_engine (Bare (Vec [0.2; 0.3])) true)
       (demo_oracle (0.5, 0.1) false 0.7) demo_manual_policy
     = (set_takeover (set_info_action demo_manual_policy [0.2; 0.3]) false, Ok [0.2; 0.3]).
Proof.
  destruct (manual_authority (demo_engine (Bare (Vec [0.2; 0.3])) false)
              (demo_oracle (0.5, 0.1) false 0.7) demo_manual_policy 0.5 0.1 eq_refl)
    as (_ & A & _).
  destruct (manual_authority (demo_engine (Bare (Vec [0.2; 0.3])) true)
              (demo_oracle (0.5, 0.1) false 0.7) demo_manual_policy 0.5 0.1 eq_refl)
    as (_ & _ & _ & B).
  split.
  - apply A; [discriminate | reflexivity | reflexivity | reflexivity | reflexivity
             | right; reflexivity].
  - apply B; [right; right; reflexivity | reflexivity].
Defined.

(** C9 as stated fails on the [manual_control] entry, and on [PHIPolicy].
    After a call of [ManualControlPolicy.act] that used the device, the
    operator toggles the expert takeover and the camera goes to bird's-eye
    view: the next call returns the expert's action, and the entry still
    reads true.  [TakeoverPolicy.act] under a bird's-eye camera returns the
    env-input action and leaves the entry absent.  And [PHIPolicy.act], whose
    trigger asks for no authority, returns the device action under a
    bird's-eye camera. *)
Lemma manual_control_entry_not_false :
  main_camera (demo_engine (Bare (Vec [0.2; 0.3])) true) = Some true
  /\ snd (ManualControlPolicy.act (demo_engine (Bare (Vec [0.2; 0.3])) true)
            (demo_oracle (0.5, 0.1) true 0.7)
            (fst (fst (ManualControlPolicy.act (demo_engine (Bare (Vec [0.2; 0.3])) false)
                         (demo_oracle (0.5, 0.1) false 0.7) demo_manual_policy))))
     = Ok [0.3; 0.4]
  /\ ActionInfo.manual_control
       (action_info
          (fst (fst (ManualControlPolicy.act (demo_engine (Bare (Vec [0.2; 0.3])) true)
                       (demo_oracle (0.5, 0.1) true 0.7)
                       (fst (fst (ManualControlPolicy.act
                                    (demo_engine (Bare (Vec [0.2; 0.3])) false)
                                    (demo_oracle (0.5, 0.1) false 0.7)
                                    demo_manual_policy)))))))
     = Some true
  /\ snd (TakeoverPolicy.act (demo_engine (Bare (Vec [0.2; 0.3])) true)
            (demo_oracle (0.5, 0.1) false 0.7) demo_manual_policy)
     = Ok [0.2; 0.3]
  /\ ActionInfo.manual_control
       (action_info
          (fst (TakeoverPolicy.act (demo_engine (Bare (Vec [0.2; 0.3])) true)
                  (demo_oracle (0.5, 0.1) false 0.7) demo_manual_policy)))
     = None
  /\ snd (PHIPolicy.act (demo_engine (Bare (Vec [0.2; 0.3])) true)
            (demo_oracle (0.5, 0.1) false 0.05) demo_manual_policy)
     = Ok [0.5; 0.1].
Proof. repeat split. Qed.

(** * Further properties of the constructors *)

(** [get_controller] returns a controller or raises, so the constructor of
    [ManualControlPolicy], when it returns, has logged no warning; it holds a
    controller exactly under [manual_control], has registered the key "t"
    exactly under [manual_control] and [use_render], and keeps
    [enable_expert] as given. *)
Theorem ManualControlPolicy_init_result (hw : Hardware) (config : Config.t) (base : Policy)
  (enable_expert0 : bool) (self : Policy) (eff : ManualControlPolicy.Effects) :
  ManualControlPolicy.init hw config base enable_expert0 = Ok (self, eff) ->
  ManualControlPolicy.warnings eff = []
  /\ (controller self = None <-> Config.manual_control config = false)
  /\ ManualControlPolicy.accepted_keys eff
     = (if Config.manual_control config && Config.use_render config then ["t"%string] else [])
  /\ enable_expert self = enable_expert0.
Proof.
  intros H. split; [eapply ManualControlPolicy_init_never_warns; exact H|].
  revert H. unfold ManualControlPolicy.init.
  destruct (Config.manual_control config).
  - match goal with |- context [get_controller ?h ?n ?p] =>
      pose proof (get_controller_not_None h n p) as N;
      destruct (get_controller h n p) as [[c|]|e] end;
      [|congruence|discriminate].
    intros H. inversion H. subst. simpl.
    split; [split; discriminate|]. split; reflexivity.
  - intros H. inversion H. subst. simpl.
    split; [split; reflexivity|]. split; reflexivity.
Qed.

Lemma ManualControlPolicy_init_result_witness :
  ManualControlPolicy.warnings
    {| ManualControlPolicy.accepted_keys := ["t"%string]; ManualControlPolicy.warnings := [] |}
  = []
  /\ enable_expert
       (set_controller (set_enable_expert (demo_policy None) true)
          (Some (XboxController false false false false))) = true.
Proof.
  destruct (ManualControlPolicy_init_result
              {| xbox_fault := None; wheel_fault := None |}
              {| Config.manual_control := true; Config.use_render := true;
                 Config.controller := "Gamepad"; Config.action_check := true |}
              (demo_policy None) true
              (set_controller (set_enable_expert (demo_policy None) true)
                 (Some (XboxController false false false false)))
              {| ManualControlPolicy.accepted_keys := ["t"%string];
                 ManualControlPolicy.warnings := [] |}
              eq_refl) as (A & _ & _ & B).
  split; [exact A | exact B].
Defined.

(** With the name "keyboard" in any capitalisation and [manual_control] on,
    [ManualControlPolicy] builds the keyboard controller with pygame input
    exactly when the engine does not render, and registers the key "t"
    exactly when it renders; [TakeoverPolicy] builds a keyboard controller,
    never with pygame input, only when the engine renders, and otherwise
    leaves the object without a controller. *)
Theorem keyboard_construction (hw : Hardware) (config : Config.t) (base : Policy)
  (enable_expert0 : bool) :
  Config.manual_control config = true ->
  lower (Config.controller config) = "keyboard"%string ->
  ManualControlPolicy.init hw config base enable_expert0
  = Ok (set_controller (set_enable_expert base enable_expert0)
          (Some (KeyboardController (negb (Config.use_render config)) false)),
        {| ManualControlPolicy.accepted_keys :=
             if Config.use_render config then ["t"%string] else [];
           ManualControlPolicy.warnings := [] |})
  /\ TakeoverPolicy.init hw config base
     = Ok (if Config.use_render config
           then set_takeover (set_controller base (Some (KeyboardController false false))) false
           else set_takeover base false).
Proof.
  intros HM HK. unfold ManualControlPolicy.init, TakeoverPolicy.init. rewrite HM.
  rewrite !(get_controller_keyboard _ _ _ HK).
  destruct (Config.use_render config); split; reflexivity.
Qed.

Lemma keyboard_construction_witness :
  ManualControlPolicy.init {| xbox_fault := Some DeviceError; wheel_fault := Some DeviceError |}
    {| Config.manual_control := true; Config.use_render := false;
       Config.controller := "KeyBoard"; Config.action_check := true |}
    (demo_policy None) true
  = Ok (set_controller (set_enable_expert (demo_policy None) true)
          (Some (KeyboardController true false)),
        {| ManualControlPolicy.accepted_keys := []; ManualControlPolicy.warnings := [] |}).
Proof.
  exact (proj1 (keyboard_construction
                  {| xbox_fault := Some DeviceError; wheel_fault := Some DeviceError |}
                  {| Config.manual_control := true; Config.use_render := false;
                     Config.controller := "KeyBoard"; Config.action_check := true |}
                  (demo_policy None) true eq_refl eq_refl)).
Defined.

(** * Further properties of TakeoverPolicy *)

Lemma check_and_clip_set_takeover (E : Engine) (self : Policy) (a : ExternalAction) (b : bool) :
  check_and_clip E (set_takeover self b) a
  = (set_takeover (fst (check_and_clip E self a)) b, snd (check_and_clip E self a)).
Proof.
  unfold check_and_clip. simpl.
  destruct (_ && _); [reflexivity|].
  unfold to_process. simpl.
  destruct (discrete_action self).
  - destruct (convert_to_continuous_action self a); reflexivity.
  - destruct a as [[v|i]|a0 x]; reflexivity.
Qed.

(** [TakeoverPolicy.act] keeps no memory of the previous decision: the value
    of [takeover] before the call changes neither the action or exception of
    the call nor, when the call returns an action, the object it leaves. *)
Theorem TakeoverPolicy_act_memoryless (E : Engine) (W : Oracle) (self : Policy) (b : bool) :
  snd (TakeoverPolicy.act E W (set_takeover self b)) = snd (TakeoverPolicy.act E W self)
  /\ (is_ok (snd (TakeoverPolicy.act E W self)) = true ->
      fst (TakeoverPolicy.act E W (set_takeover self b)) = fst (TakeoverPolicy.act E W self)).
Proof.
  unfold TakeoverPolicy.act, EnvInputPolicy.act.
  rewrite check_and_clip_set_takeover.
  destruct (check_and_clip E self (external_action E)) as [s1 [a|e]]; simpl;
    [|split; [reflexivity | discriminate]].
  destruct (TakeoverPolicy.authority E) as [[|]|e]; simpl;
    [ | split; reflexivity | split; [reflexivity | discriminate] ].
  destruct (controller s1) as [c|]; simpl; [|split; [reflexivity | discriminate]].
  destruct (process_input W) as [s t].
  destruct (TakeoverPolicy.intent c [s; t]); split; reflexivity.
Qed.

(** With a gamepad and authority for manual control, [TakeoverPolicy.act]
    sets [takeover] exactly when one of the buttons A, B, X, Y is pressed or
    the absolute value of the sum of the two raw components exceeds 0.025; it
    then returns the raw gamepad action, and otherwise the env-input action. *)
Theorem gamepad_takeover (E : Engine) (W : Oracle) (self self1 : Policy)
  (agent_action : list Q) (button_a button_b button_x button_y : bool) (s t : Q) :
  TakeoverPolicy.authority E = Ok true ->
  controller self = Some (XboxController button_a button_b button_x button_y) ->
  EnvInputPolicy.act E self = (self1, Ok agent_action) ->
  process_input W = (s, t) ->
  (takeover (fst (TakeoverPolicy.act E W self)) = true <->
   button_a = true \/ button_b = true \/ button_x = true \/ button_y = true
   \/ 0.025 < Qabs (s + t))
  /\ (takeover (fst (TakeoverPolicy.act E W self)) = true ->
      snd (TakeoverPolicy.act E W self) = Ok [s; t])
  /\ (takeover (fst (TakeoverPolicy.act E W self)) = false ->
      snd (TakeoverPolicy.act E W self) = Ok agent_action).
Proof.
  intros HG HC HA HP.
  rewrite (TakeoverPolicy_act_device E W self self1 agent_action _ s t HA HG HC HP).
  unfold TakeoverPolicy.intent.
  assert (HS : Qltb JOYSTICK_DEADZONE (Qabs (sum [s; t])) = true <-> 0.025 < Qabs (s + t)).
  { rewrite Qltb_true_iff. unfold JOYSTICK_DEADZONE. now rewrite sum_pair. }
  destruct (Qltb JOYSTICK_DEADZONE (Qabs (sum [s; t]))).
  - rewrite !orb_true_r. cbn [fst snd takeover set_takeover].
    split; [|split; [reflexivity | discriminate]].
    split; [intros _; do 4 right; now apply HS | reflexivity].
  - rewrite !orb_false_r.
    destruct button_a, button_b, button_x, button_y; cbn [orb fst snd takeover set_takeover];
      (split; [|split; first [reflexivity | discriminate]]);
      (split; [intros K; try discriminate K; tauto|]);
      try reflexivity.
    intros [K|[K|[K|[K|K]]]]; try discriminate K. apply HS in K. discriminate K.
Qed.

Lemma gamepad_takeover_witness :
  takeover (fst (TakeoverPolicy.act (demo_engine (Bare (Vec [0.2; 0.3])) false)
                   (demo_oracle (0.0, 0.0) false 0.7)
                   (demo_policy (Some (XboxController false true false false))))) = true
  /\ snd (TakeoverPolicy.act (demo_engine (Bare (Vec [0.2; 0.3])) false)
            (demo_oracle (0.0, 0.0) false 0.7)
            (demo_policy (Some (XboxController false true false false))))
     = Ok [0.0; 0.0].
Proof.
  destruct (gamepad_takeover (demo_engine (Bare (Vec [0.2; 0.3])) false)
              (demo_oracle (0.0, 0.0) false 0.7)
              (demo_policy (Some (XboxController false true false false)))
              (set_info_action (demo_policy (Some (XboxController false true false false)))
                 [0.2; 0.3])
              [0.2; 0.3] false true false false 0.0 0.0
              eq_refl eq_refl eq_refl eq_refl) as (A & B & _).
  assert (T : takeover (fst (TakeoverPolicy.act (demo_engine (Bare (Vec [0.2; 0.3])) false)
                               (demo_oracle (0.0, 0.0) false 0.7)
                               (demo_policy (Some (XboxController false true false false)))))
              = true)
    by (apply A; right; left; reflexivity).
  split; [exact T | exact (B T)].
Defined.

(** With a steering wheel and authority for manual control,
    [TakeoverPolicy.act] sets [takeover] exactly when a shift paddle is
    pressed, however far the wheel or the pedals are moved; it then returns
    the raw wheel action, and otherwise the env-input action. *)
Theorem steering_wheel_takeover (E : Engine) (W : Oracle) (self self1 : Policy)
  (agent_action : list Q) (left_shift_paddle right_shift_paddle : bool) (s t : Q) :
  TakeoverPolicy.authority E = Ok true ->
  controller self = Some (SteeringWheelController left_shift_paddle right_shift_paddle) ->
  EnvInputPolicy.act E self = (self1, Ok agent_action) ->
  process_input W = (s, t) ->
  TakeoverPolicy.act E W self
  = if left_shift_paddle || right_shift_paddle
    then (set_takeover self1 true, Ok [s; t])
    else (set_takeover self1 false, Ok agent_action).
Proof.
  intros HG HC HA HP.
  now rewrite (TakeoverPolicy_act_device E W self self1 agent_action _ s t HA HG HC HP).
Qed.

Lemma steering_wheel_takeover_witness :
  TakeoverPolicy.act (demo_engine (Bare (Vec [0.2; 0.3])) false)
    (demo_oracle (0.9, 0.8) false 0.7)
    (demo_policy (Some (SteeringWheelController false false)))
  = (set_takeover
       (set_info_action (demo_policy (Some (SteeringWheelController false false))) [0.2; 0.3])
       false,
     Ok [0.2; 0.3]).
Proof.
  exact (steering_wheel_takeover (demo_engine (Bare (Vec [0.2; 0.3])) false)
           (demo_oracle (0.9, 0.8) false 0.7)
           (demo_policy (Some (SteeringWheelController false false)))
           (set_info_action (demo_policy (Some (SteeringWheelController false false)))
              [0.2; 0.3])
           [0.2; 0.3] false false 0.9 0.8 eq_refl eq_refl eq_refl eq_refl).
Defined.

(** Without a camera, [TakeoverPolicy.act] for the tracked agent under
    [manual_control] raises [AttributeError] after the env-input action has
    been computed and stored, leaving [takeover] as it was; on the same
    engine [ManualControlPolicy] has authority, since it takes a missing
    camera for one that is not in bird's-eye view. *)
Theorem TakeoverPolicy_act_without_camera (E : Engine) (W : Oracle) (self self1 : Policy)
  (agent_action : list Q) :
  Config.manual_control (global_config E) = true ->
  is_track_vehicle E = true ->
  main_camera E = None ->
  EnvInputPolicy.act E self = (self1, Ok agent_action) ->
  TakeoverPolicy.act E W self = (self1, Raise AttributeError)
  /\ takeover self1 = takeover self
  /\ ActionInfo.action (action_info self1) = Some agent_action
  /\ ManualControlPolicy.authority E = true.
Proof.
  intros HM HT HN HA.
  unfold TakeoverPolicy.act, TakeoverPolicy.authority, ManualControlPolicy.authority,
    ManualControlPolicy.not_in_native_bev.
  rewrite HA, HM, HT, HN.
  split; [reflexivity|].
  pose proof (EnvInputPolicy_act_attrs E self) as (_ & T & _). rewrite HA in T.
  split; [exact T|].
  unfold EnvInputPolicy.act in HA. apply check_and_clip_ok in HA.
  destruct HA as (u & _ & _ & -> & _). split; reflexivity.
Qed.

Lemma TakeoverPolicy_act_without_camera_witness :
  TakeoverPolicy.act (demo_engine_no_render (Bare (Vec [0.2; 0.3])) None)
    (demo_oracle (0.5, 0.1) false 0.7)
    (demo_policy (Some (KeyboardController false true)))
  = (set_info_action (demo_policy (Some (KeyboardController false true))) [0.2; 0.3],
     Raise AttributeError).
Proof.
  exact (proj1 (TakeoverPolicy_act_without_camera
                  (demo_engine_no_render (Bare (Vec [0.2; 0.3])) None)
                  (demo_oracle (0.5, 0.1) false 0.7)
                  (demo_policy (Some (KeyboardController false true)))
                  (set_info_action (demo_policy (Some (KeyboardController false true)))
                     [0.2; 0.3])
                  [0.2; 0.3] eq_refl eq_refl eq_refl eq_refl)).
Defined.

(** A [TakeoverPolicy] constructed under [manual_control] without
    [use_render] has no controller: as soon as the agent is the tracked one
    and the camera is absent or not in bird's-eye view, [act] raises
    [AttributeError] instead of returning the env-input action it has
    computed. *)
Theorem TakeoverPolicy_without_render (hw : Hardware) (config : Config.t)
  (base self self1 : Policy) (E : Engine) (W : Oracle) (agent_action : list Q) :
  controller base = None ->
  Config.manual_control config = true ->
  Config.use_render config = false ->
  TakeoverPolicy.init hw config base = Ok self ->
  global_config E = config ->
  is_track_vehicle E = true ->
  main_camera E <> Some true ->
  EnvInputPolicy.act E self = (self1, Ok agent_action) ->
  TakeoverPolicy.act E W self = (self1, Raise AttributeError).
Proof.
  intros HB HM HR HI HG HT HC HA.
  unfold TakeoverPolicy.init in HI. rewrite HM, HR in HI. simpl in HI.
  inversion HI. subst self. clear HI.
  unfold TakeoverPolicy.act, TakeoverPolicy.authority.
  pose proof (EnvInputPolicy_act_attrs E (set_takeover base false)) as (C & _).
  rewrite HA in *. simpl in C. rewrite HG, HM, HT.
  destruct (main_camera E) as [[|]|]; [congruence | | reflexivity].
  simpl. rewrite C, HB. reflexivity.
Qed.

Lemma TakeoverPolicy_without_render_witness :
  TakeoverPolicy.act (demo_engine_no_render (Bare (Vec [0.2; 0.3])) (Some false))
    (demo_oracle (0.5, 0.1) false 0.7)
    (set_takeover (demo_policy None) false)
  = (set_info_action (set_takeover (demo_policy None) false) [0.2; 0.3],
     Raise AttributeError).
Proof.
  apply (TakeoverPolicy_without_render {| xbox_fault := None; wheel_fault := None |}
           {| Config.manual_control := true; Config.use_render := false;
              Config.controller := "keyboard"; Config.action_check := true |}
           (demo_policy None) (set_takeover (demo_policy None) false)
           (set_info_action (set_takeover (demo_policy None) false) [0.2; 0.3])
           (demo_engine_no_render (Bare (Vec [0.2; 0.3])) (Some false))
           (demo_oracle (0.5, 0.1) false 0.7) [0.2; 0.3]);
    try reflexivity.
  discriminate.
Defined.

(** Under [action_check], an external action outside the declared space makes
    [TakeoverPolicy.act] and [TakeoverPolicyWithoutBrake.act] raise
    [AssertionError] before the device is read, whatever the operator does,
    and the object is left as it was. *)
Theorem TakeoverPolicy_act_check_first (E : Engine) (W : Oracle) (self : Policy) :
  Config.action_check (global_config E) = true ->
  contains (input_space self) (external_action E) = false ->
  TakeoverPolicy.act E W self = (self, Raise AssertionError)
  /\ TakeoverPolicyWithoutBrake.act E W self = (self, Raise AssertionError).
Proof.
  intros HK HN.
  assert (R : TakeoverPolicy.act E W self = (self, Raise AssertionError)).
  { unfold TakeoverPolicy.act, EnvInputPolicy.act.
    now rewrite (check_and_clip_raises E self _ HK HN). }
  split; [exact R|]. unfold TakeoverPolicyWithoutBrake.act. now rewrite R.
Qed.

Lemma TakeoverPolicy_act_check_first_witness :
  TakeoverPolicy.act (demo_engine (Bare (Vec [2.0; 0.0])) false)
    (demo_oracle (0.5, 0.1) false 0.7)
    (demo_policy (Some (KeyboardController false true)))
  = (demo_policy (Some (KeyboardController false true)), Raise AssertionError).
Proof.
  exact (proj1 (TakeoverPolicy_act_check_first (demo_engine (Bare (Vec [2.0; 0.0])) false)
                  (demo_oracle (0.5, 0.1) false 0.7)
                  (demo_policy (Some (KeyboardController false true))) eq_refl eq_refl)).
Defined.

(** * Further properties of ManualControlPolicy *)





(** With [enable_expert] off the expert is never asked: whatever it would
    answer, [ManualControlPolicy.act] does the same. *)
Theorem ManualControlPolicy_act_expert_disabled (E : Engine) (W : Oracle) (self : Policy)
  (r : result (list Q)) :
  enable_expert self = false ->
  ManualControlPolicy.act E (with_expert W r) self = ManualControlPolicy.act E W self.
Proof.
  intros HE. unfold ManualControlPolicy.act. simpl.
  destruct (controller self); [|reflexivity].
  destruct (if process_others W then _ else _) as [x|]; [|reflexivity].
  rewrite HE, andb_false_r. reflexivity.
Qed.

Lemma ManualControlPolicy_act_expert_disabled_witness :
  ManualControlPolicy.act (demo_engine (Bare (Vec [0.2; 0.3])) true)
    (with_expert (demo_oracle (0.5, 0.1) true 0.7) (Raise TypeError))
    (demo_policy (Some (KeyboardController false false)))
  = ManualControlPolicy.act (demo_engine (Bare (Vec [0.2; 0.3])) true)
      (demo_oracle (0.5, 0.1) true 0.7)
      (demo_policy (Some (KeyboardController false false))).
Proof.
  exact (ManualControlPolicy_act_expert_disabled (demo_engine (Bare (Vec [0.2; 0.3])) true)
           (demo_oracle (0.5, 0.1) true 0.7)
           (demo_policy (Some (KeyboardController false false)))
           (Raise TypeError) eq_refl).
Defined.

(** * Further properties of brake suppression *)

(** Under takeover the brake-suppression variants return the device's
    throttle with a negative value replaced by 0:
    [TakeoverPolicyWithoutBrake.act] returns [steering, 0] for a negative
    throttle and the device action as read otherwise; a continuous
    [PHIPolicy.act] returns two components, the second being 0 for a negative
    throttle, the throttle itself when it lies in [0, 1], and 1 above; in no
    case is the second component negative. *)
Theorem no_brake_under_takeover (E : Engine) (W : Oracle) (self : Policy) (s t : Q) :
  process_input W = (s, t) ->
  (forall self' v,
      TakeoverPolicyWithoutBrake.act E W self = (self', Ok v) ->
      takeover self' = true ->
      (t < 0 -> v = [s; 0.0]) /\ (0 <= t -> v = [s; t]))
  /\ (forall self' v,
        PHIPolicy.act E W self = (self', Ok v) ->
        takeover self' = true ->
        discrete_action self = false ->
        exists c0 c1, v = [c0; c1] /\ 0 <= c1 /\ c1 <= 1
                      /\ (t < 0 -> c1 = 0.0)
                      /\ (0 <= t -> t <= 1 -> c1 = t)
                      /\ (1 < t -> c1 = 1.0)).
Proof.
  intros HP.
  split.
  - intros self' v H T.
    apply (TakeoverPolicyWithoutBrake_act_outcome E W self self' v s t HP) in H.
    destruct H as [(_ & _ & ->)|(F & _)]; [|congruence].
    unfold PHIPolicy.without_brake. destruct (Qltb t 0.0) eqn:L.
    + apply Qltb_true_iff in L. split; [reflexivity|]. intros. lra.
    + apply Qltb_false_iff in L. split; [intros; lra | reflexivity].
  - intros self' v H T D. apply PHIPolicy_act_outcome in H.
    destruct H as [(_ & _ & R)|(F & _)]; [|congruence].
    unfold device_result, to_process in R. rewrite D, HP in R.
    unfold PHIPolicy.without_brake in R.
    destruct (Qltb t 0.0) eqn:L; inversion R.
    + apply Qltb_true_iff in L.
      exists (clip s (-1.0) 1.0), 0.0. split; [reflexivity|].
      split; [lra|]. split; [lra|]. split; [reflexivity|].
      split; intros; lra.
    + apply Qltb_false_iff in L.
      exists (clip s (-1.0) 1.0), (clip t (-1.0) 1.0). split; [reflexivity|].
      destruct (clip_cases t) as ((_ & U) & I & A & _).
      assert (P : 0 <= clip t (-1.0) 1.0).
      { unfold clip, py_min, py_max.
        destruct (Qltb t (-1.0)) eqn:X; [apply Qltb_true_iff in X; lra|].
        destruct (Qltb 1.0 t); lra. }
      split; [exact P|]. split; [exact U|]. split; [intros; lra|].
      split; [|exact A]. intros L0 L1. apply I. unfold in_unit. split; lra.
Qed.

Lemma no_brake_under_takeover_witness :
  -0.5 < 0
  /\ TakeoverPolicyWithoutBrake.act (demo_engine (Bare (Vec [0.2; 0.3])) false)
       (demo_oracle (0.5, -0.5) false 0.7)
       (demo_policy (Some (SteeringWheelController true false)))
     = (set_takeover
          (set_info_action (demo_policy (Some (SteeringWheelController true false)))
             [0.2; 0.3]) true,
        Ok [0.5; 0.0])
  /\ [0.5; 0.0] = [0.5; 0.0].
Proof.
  assert (N : -0.5 < 0) by (unfold Qlt; simpl; lia).
  destruct (no_brake_under_takeover (demo_engine (Bare (Vec [0.2; 0.3])) false)
              (demo_oracle (0.5, -0.5) false 0.7)
              (demo_policy (Some (SteeringWheelController true false)))
              0.5 (-0.5) eq_refl) as (A & _).
  split; [exact N|]. split; [reflexivity|].
  exact (proj1 (A (set_takeover
                     (set_info_action
                        (demo_policy (Some (SteeringWheelController true false)))
                        [0.2; 0.3]) true)
                  [0.5; 0.0] eq_refl eq_refl) N).
Defined.

(** * Further properties of PHIPolicy *)

Lemma PHIPolicy_act_countdown_ok (E : Engine) (W : Oracle) (self : Policy) :
  (1 <= takeover_steps self)%Z ->
  countdown_ok self ->
  countdown_ok (fst (PHIPolicy.act E W self)).
Proof.
  intros HN ((L & U) & Z0). unfold countdown_ok.
  destruct (PHIPolicy_act_state E W self) as (A & B).
  destruct (PHIPolicy_act_setup E W self) as (_ & N & _).
  rewrite A, B, N. clear A B N.
  unfold PHIPolicy.expire.
  destruct (takeover_steps self <=? current_takeover_last_steps self)%Z eqn:X.
  - unfold PHIPolicy.decide. simpl.
    destruct (PHIPolicy.trigger E W); simpl.
    + destruct (controller self); split; try lia; discriminate.
    + split; [lia | reflexivity].
  - apply Z.leb_gt in X. unfold PHIPolicy.decide.
    destruct (takeover self) eqn:T; simpl.
    + rewrite T. destruct (controller self); split; try lia; discriminate.
    + specialize (Z0 eq_refl).
      destruct (PHIPolicy.trigger E W); simpl; rewrite Z0.
      * destruct (controller self); split; try lia; discriminate.
      * split; [lia | reflexivity].
Qed.

(** Along any sequence of calls of [PHIPolicy.act], with or without a
    controller and whether or not the calls raise, the counter stays between
    0 and [takeover_steps] and is 0 whenever the policy is in AUTONOMOUS. *)
Theorem PHIPolicy_countdown_invariant (ticks : list (Engine * Oracle)) (self : Policy) :
  (1 <= takeover_steps self)%Z ->
  countdown_ok self ->
  Forall countdown_ok (PHIPolicy.states ticks self).
Proof.
  revert self. induction ticks as [|[E W] ticks IH]; intros self HN HI.
  - constructor.
  - cbn [PHIPolicy.states].
    pose proof (PHIPolicy_act_countdown_ok E W self HN HI) as H1.
    destruct (PHIPolicy_act_setup E W self) as (_ & N & _).
    constructor; [exact H1|]. apply IH; [rewrite N; exact HN | exact H1].
Qed.

Lemma PHIPolicy_countdown_invariant_witness :
  Forall countdown_ok
    (PHIPolicy.states
       (repeat (demo_engine (Dict (Vec [0.2; 0.3]) true) false,
                demo_oracle (0.5, 0.1) false 0.7) 25)
       (base_policy false (fun _ => Raise TypeError) (Box (-1.0) 1.0 2))).
Proof.
  apply PHIPolicy_countdown_invariant.
  - simpl. lia.
  - unfold countdown_ok. simpl. split; [lia | reflexivity].
Defined.

Lemma PHIPolicy_act_no_device (E : Engine) (W : Oracle) (self : Policy) :
  controller self = None ->
  takeover self = true ->
  (current_takeover_last_steps self < takeover_steps self)%Z ->
  PHIPolicy.act E W self = (self, Raise AttributeError).
Proof.
  intros HC HT HL. unfold PHIPolicy.act, PHIPolicy.expire.
  destruct (takeover_steps self <=? current_takeover_last_steps self)%Z eqn:X;
    [apply Z.leb_le in X; lia|].
  unfold PHIPolicy.decide. rewrite HT. simpl. now rewrite HT, HC.
Qed.

(** A [PHIPolicy] without a controller never leaves a takeover: once the
    trigger fires in AUTONOMOUS, that call and every later one raise
    [AttributeError], the counter does not move and the state stays MANUAL. *)
Theorem PHIPolicy_stuck_without_controller (E0 : Engine) (W0 : Oracle)
  (ticks : list (Engine * Oracle)) (self : Policy) :
  controller self = None ->
  (1 <= takeover_steps self)%Z ->
  takeover self = false ->
  current_takeover_last_steps self = 0%Z ->
  PHIPolicy.trigger E0 W0 = true ->
  Forall (fun r => r = Raise AttributeError) (PHIPolicy.outputs ((E0, W0) :: ticks) self)
  /\ Forall (fun s => s = set_takeover self true) (PHIPolicy.states ((E0, W0) :: ticks) self).
Proof.
  intros HC HN HT HS HF.
  assert (R0 : PHIPolicy.act E0 W0 self = (set_takeover self true, Raise AttributeError)).
  { unfold PHIPolicy.act, PHIPolicy.expire.
    destruct (takeover_steps self <=? current_takeover_last_steps self)%Z eqn:X;
      [apply Z.leb_le in X; lia|].
    unfold PHIPolicy.decide. rewrite HT, HF. simpl. now rewrite HC. }
  cbn [PHIPolicy.outputs PHIPolicy.states]. rewrite R0. cbn [fst].
  assert (G : forall l,
             Forall (fun r => r = Raise AttributeError)
               (PHIPolicy.outputs l (set_takeover self true))
             /\ Forall (fun s => s = set_takeover self true)
                  (PHIPolicy.states l (set_takeover self true))).
  { induction l as [|[E W] l IH]; [split; constructor|].
    cbn [PHIPolicy.outputs PHIPolicy.states].
    rewrite (PHIPolicy_act_no_device E W (set_takeover self true));
      [|exact HC|reflexivity|simpl; lia].
    destruct IH as (I1 & I2). split; constructor; auto. }
  destruct (G ticks) as (G1 & G2). split; constructor; auto.
Qed.

Lemma PHIPolicy_stuck_without_controller_witness :
  Forall (fun r => r = Raise AttributeError)
    (PHIPolicy.outputs
       ((demo_engine (Bare (Vec [0.2; 0.3])) false, demo_oracle (0.5, 0.1) false 0.05)
        :: repeat (demo_engine (Bare (Vec [0.2; 0.3])) false,
                   demo_oracle (0.5, 0.1) false 0.7) 20)
       (demo_policy None)).
Proof.
  destruct (PHIPolicy_stuck_without_controller
              (demo_engine (Bare (Vec [0.2; 0.3])) false) (demo_oracle (0.5, 0.1) false 0.05)
              (repeat (demo_engine (Bare (Vec [0.2; 0.3])) false,
                       demo_oracle (0.5, 0.1) false 0.7) 20)
              (demo_policy None)) as (A & _);
    [reflexivity | simpl; lia | reflexivity | reflexivity | reflexivity | exact A].
Defined.

(** A call of [PHIPolicy.act] in the course of a takeover validates the
    external action and otherwise ignores it, together with the draw: it
    raises [AssertionError] when the check of [action_check] fails and
    returns the processed device action when it does not, and in both cases
    the counter has advanced by one and the state is still MANUAL. *)
Theorem PHIPolicy_act_in_takeover (E : Engine) (W : Oracle) (self : Policy) :
  controller self <> None ->
  takeover self = true ->
  (current_takeover_last_steps self < takeover_steps self)%Z ->
  snd (PHIPolicy.act E W self)
  = (if Config.action_check (global_config E)
        && negb (contains (input_space self) (external_action E))
     then Raise AssertionError
     else device_result self W)
  /\ takeover (fst (PHIPolicy.act E W self)) = true
  /\ current_takeover_last_steps (fst (PHIPolicy.act E W self))
     = (current_takeover_last_steps self + 1)%Z.
Proof.
  intros HC HT HL.
  split; [|apply PHIPolicy_act_during; assumption].
  unfold PHIPolicy.act, PHIPolicy.expire.
  destruct (takeover_steps self <=? current_takeover_last_steps self)%Z eqn:X;
    [apply Z.leb_le in X; lia|].
  unfold PHIPolicy.decide. rewrite HT. simpl. rewrite HT.
  destruct (controller self); [|congruence].
  unfold check_and_clip, device_result, to_process. simpl.
  destruct (_ && _); [reflexivity|].
  destruct (discrete_action self).
  - destruct (convert_to_continuous_action self _); reflexivity.
  - reflexivity.
Qed.

Lemma PHIPolicy_act_in_takeover_witness :
  snd (PHIPolicy.act (demo_engine (Bare (Vec [2.0; 0.0])) false)
         (demo_oracle (0.5, 0.1) false 0.7)
         (set_takeover (demo_policy (Some (KeyboardController false false))) true))
  = Raise AssertionError
  /\ current_takeover_last_steps
       (fst (PHIPolicy.act (demo_engine (Bare (Vec [2.0; 0.0])) false)
               (demo_oracle (0.5, 0.1) false 0.7)
               (set_takeover (demo_policy (Some (KeyboardController false false))) true)))
     = 1%Z.
Proof.
  destruct (PHIPolicy_act_in_takeover (demo_engine (Bare (Vec [2.0; 0.0])) false)
              (demo_oracle (0.5, 0.1) false 0.7)
              (set_takeover (demo_policy (Some (KeyboardController false false))) true))
    as (A & _ & B); [discriminate | reflexivity | simpl; lia |].
  split; [exact A | exact B].
Defined.

(** A call of [PHIPolicy.act] that starts in AUTONOMOUS ends in MANUAL
    exactly when the draw is below 0.1 or the external input is a dict whose
    [extra] entry is true; a bare external action cannot ask for a
    takeover. *)
Theorem PHIPolicy_act_entering (E : Engine) (W : Oracle) (self : Policy) :
  takeover self = false ->
  (takeover (fst (PHIPolicy.act E W self)) = true <->
   rand W < 0.1 \/ exists a, external_action E = Dict a true).
Proof.
  intros HT.
  destruct (PHIPolicy_act_state E W self) as (A & _). rewrite A. clear A.
  assert (X : takeover (PHIPolicy.expire self) = false).
  { unfold PHIPolicy.expire. destruct (_ <=? _)%Z; [reflexivity | exact HT]. }
  unfold PHIPolicy.decide. rewrite X. simpl. unfold PHIPolicy.trigger.
  destruct (Qltb (rand W) 0.1) eqn:R.
  - apply Qltb_true_iff in R. split; auto.
  - apply Qltb_false_iff in R.
    destruct (external_action E) as [a|a [|]].
    + split; [discriminate|]. intros [H|(a' & H)]; [lra | discriminate].
    + split; eauto.
    + split; [discriminate|]. intros [H|(a' & H)]; [lra|]. inversion H.
Qed.

Lemma PHIPolicy_act_entering_witness :
  takeover (fst (PHIPolicy.act (demo_engine (Dict (Vec [0.2; 0.3]) true) false)
                   (demo_oracle (0.5, 0.1) false 0.7)
                   (demo_policy (Some (KeyboardController false false))))) = true.
Proof.
  apply PHIPolicy_act_entering; [reflexivity|].
  right. exists (Vec [0.2; 0.3]). reflexivity.
Defined.

(** ** Returned actions fed back *)

Lemma in_unit_contains (v : list Q) :
  Forall in_unit v -> contains (Box (-1.0) 1.0 (List.length v)) (Bare (Vec v)) = true.
Proof.
  intros H. simpl. rewrite Nat.eqb_refl. simpl.
  apply forallb_forall. intros x Hx.
  rewrite Forall_forall in H. destruct (H x Hx) as (L & U).
  apply andb_true_iff. split; apply Qle_bool_iff; lra.
Qed.

(** An action returned by [PHIPolicy.act] lies in the box [-1, 1]^n of its
    own length, and clipping it again changes nothing: fed back as the
    external action of a continuous policy over that box, it passes the check
    of [action_check] and [EnvInputPolicy.act] returns it as it is. *)
Theorem PHIPolicy_act_feedback (E : Engine) (W : Oracle) (self self' : Policy) (v : list Q)
  (E' : Engine) (p : Policy) :
  PHIPolicy.act E W self = (self', Ok v) ->
  external_action E' = Bare (Vec v) ->
  input_space p = Box (-1.0) 1.0 (List.length v) ->
  discrete_action p = false ->
  contains (input_space p) (external_action E') = true
  /\ clip_all v = v
  /\ EnvInputPolicy.act E' p = (set_info_action p v, Ok v).
Proof.
  intros H HX HS HD.
  pose proof (PHIPolicy_act_in_unit E W self self' v H) as I.
  assert (K : contains (input_space p) (external_action E') = true)
    by (rewrite HX, HS; now apply in_unit_contains).
  assert (C : clip_all v = v) by now apply clip_all_id.
  split; [exact K|]. split; [exact C|].
  unfold EnvInputPolicy.act.
  rewrite (check_and_clip_returns E' p (external_action E') v (or_intror K)).
  - now rewrite C.
  - unfold to_process. now rewrite HD, HX.
Qed.

Lemma PHIPolicy_act_feedback_witness :
  EnvInputPolicy.act (demo_engine (Bare (Vec [1.0; 0.0])) false)
    (demo_policy (Some (SteeringWheelController true false)))
  = (set_info_action (demo_policy (Some (SteeringWheelController true false))) [1.0; 0.0],
     Ok [1.0; 0.0]).
Proof.
  refine (proj2 (proj2 (PHIPolicy_act_feedback
            (demo_engine (Bare (Vec [0.2; 0.3])) false)
            (demo_oracle (1.5, -0.5) false 0.05)
            (demo_policy (Some (SteeringWheelController true false)))
            _ [1.0; 0.0]
            (demo_engine (Bare (Vec [1.0; 0.0])) false)
            (demo_policy (Some (SteeringWheelController true false)))
            eq_refl eq_refl eq_refl eq_refl))).
Defined.

(** * Further properties across the classes *)

(** [get_controller] has three outcomes: a controller (never [None]), the
    [ValueError] of an unknown name, or the exception of the joystick
    constructor the name selects; the name "keyboard" never fails, and
    [pygame_control] matters to the keyboard only. *)
Theorem get_controller_outcome (hw : Hardware) (name : string) (pygame_control : bool) :
  ((exists c, get_controller hw name pygame_control = Ok (Some c))
   \/ (get_controller hw name pygame_control = Raise ValueError
       /\ ~ In (lower name) ("keyboard"%string :: gamepad_names ++ wheel_names))
   \/ (exists e, get_controller hw name pygame_control = Raise e
                 /\ ((In (lower name) gamepad_names /\ xbox_fault hw = Some e)
                     \/ (In (lower name) wheel_names /\ wheel_fault hw = Some e))))
  /\ (lower name <> "keyboard"%string ->
      get_controller hw name (negb pygame_control) = get_controller hw name pygame_control).
Proof.
  destruct (String.eqb (lower name) "keyboard") eqn:K.
  - apply String.eqb_eq in K. split; [|congruence].
    left. rewrite (get_controller_keyboard _ _ _ K). eauto.
  - apply String.eqb_neq in K.
    destruct (str_in (lower name) gamepad_names) eqn:G.
    + apply str_in_true in G. rewrite !(get_controller_gamepad _ _ _ G).
      split; [|reflexivity]. unfold new_XboxController.
      destruct (xbox_fault hw) as [e|] eqn:F; [|left; eauto].
      right. right. exists e. auto.
    + apply str_in_false in G.
      destruct (str_in (lower name) wheel_names) eqn:Wh.
      * apply str_in_true in Wh. rewrite !(get_controller_wheel _ _ _ Wh).
        split; [|reflexivity]. unfold new_SteeringWheelController.
        destruct (wheel_fault hw) as [e|] eqn:F; [|left; eauto].
        right. right. exists e. auto.
      * apply str_in_false in Wh.
        assert (N : ~ In (lower name) ("keyboard"%string :: gamepad_names ++ wheel_names)).
        { intros [H|H]; [congruence|]. apply in_app_or in H. tauto. }
        rewrite !(get_controller_other _ _ _ N). split; [|reflexivity].
        right. left. auto.
Qed.

(** An unknown controller name is noticed only where a controller is built:
    the constructor of [ManualControlPolicy] raises [ValueError] under
    [manual_control] and otherwise succeeds; the constructor of
    [TakeoverPolicy] (and of [PHIPolicy]) raises it under [manual_control]
    with [use_render] and otherwise succeeds. *)
Theorem unknown_name_construction (hw : Hardware) (config : Config.t) (base : Policy)
  (enable_expert0 : bool) :
  ~ In (lower (Config.controller config)) ("keyboard"%string :: gamepad_names ++ wheel_names) ->
  (ManualControlPolicy.init hw config base enable_expert0 = Raise ValueError
   <-> Config.manual_control config = true)
  /\ (is_ok (ManualControlPolicy.init hw config base enable_expert0)
      = negb (Config.manual_control config))
  /\ (PHIPolicy.init hw config base = Raise ValueError
      <-> Config.manual_control config && Config.use_render config = true)
  /\ (is_ok (TakeoverPolicy.init hw config base)
      = negb (Config.manual_control config && Config.use_render config)).
Proof.
  intros N.
  unfold PHIPolicy.init, ManualControlPolicy.init, TakeoverPolicy.init.
  rewrite !(get_controller_other _ _ _ N).
  destruct (Config.manual_control config), (Config.use_render config); simpl;
    repeat split; intros; try reflexivity; try discriminate.
Qed.

Lemma unknown_name_construction_witness :
  is_ok (TakeoverPolicy.init {| xbox_fault := None; wheel_fault := None |}
           {| Config.manual_control := true; Config.use_render := false;
              Config.controller := "joypad2"; Config.action_check := true |}
           (demo_policy None)) = true
  /\ is_ok (ManualControlPolicy.init {| xbox_fault := None; wheel_fault := None |}
              {| Config.manual_control := true; Config.use_render := false;
                 Config.controller := "joypad2"; Config.action_check := true |}
              (demo_policy None) true) = false.
Proof.
  destruct (unknown_name_construction {| xbox_fault := None; wheel_fault := None |}
              {| Config.manual_control := true; Config.use_render := false;
                 Config.controller := "joypad2"; Config.action_check := true |}
              (demo_policy None) true) as (_ & A & _ & B).
  - simpl. intros H. repeat (destruct H as [H|H]; [discriminate H|]). exact H.
  - split; [exact B | exact A].
Defined.

(** [TakeoverPolicyWithoutBrake.act] leaves the object as
    [TakeoverPolicy.act] leaves it, and returns what [TakeoverPolicy.act]
    returns unless the call ends under takeover with a negative throttle. *)
Theorem without_brake_vs_takeover (E : Engine) (W : Oracle) (self : Policy) (s t : Q) :
  process_input W = (s, t) ->
  fst (TakeoverPolicyWithoutBrake.act E W self) = fst (TakeoverPolicy.act E W self)
  /\ (0 <= t \/ takeover (fst (TakeoverPolicy.act E W self)) = false ->
      TakeoverPolicyWithoutBrake.act E W self = TakeoverPolicy.act E W self).
Proof.
  intros HP. unfold TakeoverPolicyWithoutBrake.act.
  destruct (TakeoverPolicy.act E W self) as [s1 [a|e]] eqn:R; [|split; reflexivity].
  apply (TakeoverPolicy_act_outcome E W self s1 a s t HP) in R.
  destruct R as [(T & _ & -> & _)|(T & _)]; cbn [fst]; rewrite T.
  - simpl. destruct (Qltb t 0.0) eqn:L; [|split; reflexivity].
    split; [reflexivity|]. apply Qltb_true_iff in L.
    intros [H|H]; [lra | discriminate].
  - split; reflexivity.
Qed.

Lemma without_brake_vs_takeover_witness :
  TakeoverPolicyWithoutBrake.act (demo_engine (Bare (Vec [0.2; -0.3])) false)
    (demo_oracle (0.5, 0.25) false 0.7)
    (demo_policy (Some (SteeringWheelController true false)))
  = TakeoverPolicy.act (demo_engine (Bare (Vec [0.2; -0.3])) false)
      (demo_oracle (0.5, 0.25) false 0.7)
      (demo_policy (Some (SteeringWheelController true false))).
Proof.
  destruct (without_brake_vs_takeover (demo_engine (Bare (Vec [0.2; -0.3])) false)
              (demo_oracle (0.5, 0.25) false 0.7)
              (demo_policy (Some (SteeringWheelController true false)))
              0.5 0.25 eq_refl) as (_ & A).
  apply A. left. unfold Qle. simpl. lia.
Defined.

(** [PHIPolicy.act] does not ask for authority: when its trigger fires it
    returns the processed device action also for an agent that is not the
    tracked one, or under a bird's-eye camera, or with [manual_control] off,
    where [TakeoverPolicyWithoutBrake.act] returns the env-input action and
    stays in AUTONOMOUS. *)
Theorem PHIPolicy_without_authority (E : Engine) (W : Oracle) (self self1 : Policy)
  (agent_action : list Q) :
  TakeoverPolicy.authority E = Ok false ->
  controller self <> None ->
  discrete_action self = false ->
  takeover self = false ->
  PHIPolicy.trigger E W = true ->
  EnvInputPolicy.act E self = (self1, Ok agent_action) ->
  snd (PHIPolicy.act E W self) = Ok (clip_all (PHIPolicy.without_brake (process_input W)))
  /\ takeover (fst (PHIPolicy.act E W self)) = true
  /\ TakeoverPolicyWithoutBrake.act E W self = (set_takeover self1 false, Ok agent_action).
Proof.
  intros HG HC HD HT HF HA.
  assert (T : takeover (fst (PHIPolicy.act E W self)) = true).
  { destruct (PHIPolicy_act_state E W self) as (A & _). rewrite A.
    assert (X : takeover (PHIPolicy.expire self) = false).
    { unfold PHIPolicy.expire. destruct (_ <=? _)%Z; [reflexivity | exact HT]. }
    unfold PHIPolicy.decide. rewrite X. simpl. exact HF. }
  split; [|split; [exact T|]].
  - unfold EnvInputPolicy.act in HA. apply check_and_clip_ok in HA.
    destruct HA as (u & P & _ & _ & K).
    assert (K' : Config.action_check (global_config E) = false
                 \/ contains (input_space self) (external_action E) = true)
      by (destruct (Config.action_check (global_config E)); auto).
    assert (U : exists u', PHIPolicy.env_action (external_action E) = Vec u').
    { unfold to_process in P. rewrite HD in P.
      destruct (external_action E) as [[v|i]|a x]; try discriminate. simpl. eauto. }
    destruct U as (u' & U).
    rewrite (PHIPolicy_act_returns E W self u' HD HC K' U). now rewrite T.
  - unfold TakeoverPolicyWithoutBrake.act.
    rewrite (TakeoverPolicy_act_no_authority E W self self1 agent_action HA HG).
    reflexivity.
Qed.

Lemma PHIPolicy_without_authority_witness :
  snd (PHIPolicy.act (demo_engine (Bare (Vec [0.2; 0.3])) true)
         (demo_oracle (0.5, -0.5) false 0.05)
         (demo_policy (Some (KeyboardController false false))))
  = Ok (clip_all (PHIPolicy.without_brake (0.5, -0.5)))
  /\ TakeoverPolicyWithoutBrake.act (demo_engine (Bare (Vec [0.2; 0.3])) true)
       (demo_oracle (0.5, -0.5) false 0.05)
       (demo_policy (Some (KeyboardController false false)))
     = (set_takeover
          (set_info_action (demo_policy (Some (KeyboardController false false))) [0.2; 0.3])
          false,
        Ok [0.2; 0.3]).
Proof.
  destruct (PHIPolicy_without_authority (demo_engine (Bare (Vec [0.2; 0.3])) true)
              (demo_oracle (0.5, -0.5) false 0.05)
              (demo_policy (Some (KeyboardController false false)))
              (set_info_action (demo_policy (Some (KeyboardController false false)))
                 [0.2; 0.3])
              [0.2; 0.3]) as (A & _ & B);
    try reflexivity; try discriminate.
  split; [exact A | exact B].
Defined.
